(** * FBTPbot: conversation and escalation protocol of the support clients

    A shallow embedding of the TypeScript clients of the Farmbazis support
    bot (the API client, the chat page, the embeddable chat widget and the
    operator panel) and of the Java integration sample, together with the
    properties of the conversation / escalation protocol that they implement.

    Conventions of the embedding:
    - a JavaScript string is a [string] holding the UTF-8 bytes of the text;
    - a React component is its state record; an event handler is a function
      on that record.  An [async] handler is split at its [await]: the part
      before it ([*_begin]) returns the new state, the request put on the
      wire and the variables the continuation closes over; the part after it
      ([*_end]) takes the settled promise.  State setters given an updater
      function ([setMessages(prev => ...)]) act on the state at the time the
      continuation runs, plain reads use the captured render;
    - the network is an oracle: every fetch is answered by a [FetchResult]
      chosen by the environment. *)

From Stdlib Require Import Ascii String QArith_base.
From Stdlib Require Import DecimalString DecimalNat.
From stdpp Require Import base tactics option list strings gmap stringmap.

Local Open Scope string_scope.
Local Open Scope list_scope.
Local Open Scope nat_scope.

(** ** Sessions of events

    A component is driven by a list of events; every event yields the next
    state and the requests it put on the wire. *)

Module Trace.

Section Run.

Context {S E R : Type} (step : S → E → S * list R).

Fixpoint run (s : S) (es : list E) : S * list R :=
  match es with
  | [] => (s, [])
  | e :: es' =>
      let '(s1, out1) := step s e in
      let '(s2, out2) := run s1 es' in
      (s2, out1 ++ out2)
  end.

End Run.

End Trace.

(** ** JavaScript primitives used by the clients *)

Module Js.

Definition bytes (l : list nat) : list ascii := map ascii_of_nat l.

(** ECMAScript [WhiteSpace] and [LineTerminator] code points, each as its
    UTF-8 byte sequence: TAB, LF, VT, FF, CR, SP, U+00A0, U+1680,
    U+2000..U+200A, U+2028, U+2029, U+202F, U+205F, U+3000, U+FEFF. *)
Definition white_space : list (list ascii) :=
  map bytes
    [ [9]; [10]; [11]; [12]; [13]; [32]; [194; 160]; [225; 154; 128];
      [226; 128; 128]; [226; 128; 129]; [226; 128; 130]; [226; 128; 131];
      [226; 128; 132]; [226; 128; 133]; [226; 128; 134]; [226; 128; 135];
      [226; 128; 136]; [226; 128; 137]; [226; 128; 138];
      [226; 128; 168]; [226; 128; 169]; [226; 128; 175];
      [226; 129; 159]; [227; 128; 128]; [239; 187; 191] ].

Fixpoint strip_prefix (w l : list ascii) : option (list ascii) :=
  match w, l with
  | [], _ => Some l
  | a :: w', b :: l' => if Ascii.eqb a b then strip_prefix w' l' else None
  | _ :: _, [] => None
  end.

Fixpoint strip_one (table : list (list ascii)) (l : list ascii)
  : option (list ascii) :=
  match table with
  | [] => None
  | w :: table' =>
      match strip_prefix w l with
      | Some l' => Some l'
      | None => strip_one table' l
      end
  end.

Fixpoint strip_all (table : list (list ascii)) (fuel : nat) (l : list ascii)
  : list ascii :=
  match fuel with
  | 0 => l
  | S fuel' =>
      match strip_one table l with
      | Some l' => strip_all table fuel' l'
      | None => l
      end
  end.

Definition trimStart (l : list ascii) : list ascii :=
  strip_all white_space (length l) l.

Definition trimEnd (l : list ascii) : list ascii :=
  rev (strip_all (map (@rev ascii) white_space) (length l) (rev l)).

(** [String.prototype.trim] *)
Definition trim (s : string) : string :=
  string_of_list_ascii (trimEnd (trimStart (list_ascii_of_string s))).

(** [String(n)] for a non-negative integer: its decimal digits. *)
Definition String_of_nat (n : nat) : string :=
  NilEmpty.string_of_uint (Nat.to_uint n).

(** Truthiness of a string: the empty string is the only falsy one. *)
Definition truthy (s : string) : bool :=
  match s with
  | EmptyString => false
  | String _ _ => true
  end.

(** Truthiness of [string | null] and [string | undefined]. *)
Definition truthy_opt (o : option string) : bool :=
  match o with
  | Some s => truthy s
  | None => false
  end.

(** [x || undefined] for [x : string | null]. *)
Definition or_undefined (o : option string) : option string :=
  match o with
  | Some s => if truthy s then Some s else None
  | None => None
  end.

(** [haystack.includes(needle)], on lists of bytes. *)
Fixpoint includes (needle haystack : list ascii) : bool :=
  match strip_prefix needle haystack with
  | Some _ => true
  | None =>
      match haystack with
      | [] => false
      | _ :: rest => includes needle rest
      end
  end.

End Js.

(** ** The API client ([frontend/src/api/client.ts]) *)

Module Api.

Definition API_BASE : string := "/api".

Record SuggestedTopic := {
  title : string;
  article_id : string;
  snippet : string
}.

Inductive ResponseType := Answer | Clarification.

Record ChatResponse := {
  answer : string;
  session_id : string;
  confidence : Q;
  needs_escalation : bool;
  source_articles : list string;
  youtube_links : list string;
  has_images : bool;
  response_type : ResponseType;
  suggested_topics : option (list SuggestedTopic)
}.

Record EscalationResponse := {
  escalation_id : string;
  status : string;
  message : string;
  position_in_queue : nat
}.

Inductive Role := user | assistant.

Record ChatMessage := {
  cm_role : Role;
  cm_content : string;
  cm_timestamp : option string
}.

Record EscalationDetail := {
  ed_escalation_id : string;
  ed_session_id : string;
  ed_status : string;
  ed_reason : option string;
  ed_contact_info : option string;
  ed_chat_history : list ChatMessage;
  ed_created_at : string;
  ed_updated_at : option string;
  ed_operator_notes : option string
}.

Record EscalationList := {
  escalations : list EscalationDetail;
  total : nat;
  pending_count : nat
}.

Record LoginResponse := {
  token : string;
  username : string
}.

(** Values that [JSON.stringify] writes into a request body. *)
Inductive json :=
| JNull
| JString (s : string)
| JNumber (n : Z)
| JBool (b : bool).

(** What [fetch] puts on the wire.  The body is the stringified object,
    kept as its list of properties in source order. *)
Record Request := {
  method : string;
  path : string;
  query : list (string * string);
  headers : list (string * string);
  body : option (list (string * json))
}.

(** What the network gives back: [fetch] rejects, or it resolves to a
    response with a status; [json_body] is [None] when [res.json()]
    rejects. *)
Inductive FetchResult (A : Type) :=
| NetworkError
| Http (http_status : nat) (json_body : option A).
Global Arguments NetworkError {A}.
Global Arguments Http {A} http_status json_body.

Inductive Error :=
| TypeError
| ApiError (msg : string).

Inductive Promise (A : Type) :=
| Resolved (a : A)
| Rejected (e : Error).
Global Arguments Resolved {A} a.
Global Arguments Rejected {A} e.

(** [res.ok] *)
Definition ok (http_status : nat) : bool :=
  (200 <=? http_status) && (http_status <=? 299).

Definition json_headers : list (string * string) :=
  [("Content-Type", "application/json")].

(** A property whose value is [undefined] is left out by [JSON.stringify]. *)
Definition property (key : string) (v : option string)
  : list (string * json) :=
  match v with
  | Some s => [(key, JString s)]
  | None => []
  end.

(** [sessionId || null] for [sessionId?: string]. *)
Definition or_null (o : option string) : json :=
  match Js.or_undefined o with
  | Some s => JString s
  | None => JNull
  end.

(** [if (!res.ok) throw new Error(`API error: ${res.status}`);
     return res.json()] *)
Definition checked {A} (r : FetchResult A) : Promise A :=
  match r with
  | NetworkError => Rejected TypeError
  | Http st b =>
      if ok st then
        match b with
        | Some a => Resolved a
        | None => Rejected TypeError
        end
      else Rejected (ApiError ("API error: " +:+ Js.String_of_nat st))
  end.

(** *** [sendMessage] *)
Definition sendMessage_request (msg : string) (sessionId : option string)
  : Request :=
  {| method := "POST";
     path := API_BASE +:+ "/chat";
     query := [];
     headers := json_headers;
     body := Some [("message", JString msg);
                   ("session_id", or_null sessionId)] |}.

Definition sendMessage_response (r : FetchResult ChatResponse)
  : Promise ChatResponse := checked r.

(** *** [createEscalation] *)
Definition createEscalation_request
    (sessionId : string) (reason contactInfo : option string) : Request :=
  {| method := "POST";
     path := API_BASE +:+ "/escalation";
     query := [];
     headers := json_headers;
     body := Some ([("session_id", JString sessionId)]
                     ++ property "reason" reason
                     ++ property "contact_info" contactInfo) |}.

Definition createEscalation_response (r : FetchResult EscalationResponse)
  : Promise EscalationResponse := checked r.

(** *** [sendFeedback]: the response is awaited but never inspected. *)
Definition sendFeedback_request
    (sessionId : string) (rating : Z) (messageIndex : Z)
    (comment : option string) : Request :=
  {| method := "POST";
     path := API_BASE +:+ "/escalation/feedback";
     query := [];
     headers := json_headers;
     body := Some ([("session_id", JString sessionId);
                    ("rating", JNumber rating);
                    ("message_index", JNumber messageIndex)]
                     ++ property "comment" comment) |}.

Definition sendFeedback_response (r : FetchResult unit) : Promise unit :=
  match r with
  | NetworkError => Rejected TypeError
  | Http _ _ => Resolved tt
  end.

(** *** [operatorLogin] *)
Definition operatorLogin_request (uname password : string) : Request :=
  {| method := "POST";
     path := API_BASE +:+ "/operator/login";
     query := [];
     headers := json_headers;
     body := Some [("username", JString uname);
                   ("password", JString password)] |}.

Definition operatorLogin_response (r : FetchResult LoginResponse)
  : Promise LoginResponse :=
  match r with
  | NetworkError => Rejected TypeError
  | Http st b =>
      if ok st then
        match b with
        | Some a => Resolved a
        | None => Rejected TypeError
        end
      else Rejected (ApiError "Неверный логин или пароль")
  end.

(** *** [getEscalations]: the URL is [window.location.origin] followed by
    [path]; the [status] parameter is set only when [status] is truthy. *)
Definition getEscalations_request (tok : string) (st : option string)
  : Request :=
  {| method := "GET";
     path := API_BASE +:+ "/operator/escalations";
     query := match Js.or_undefined st with
              | Some s => [("status", s)]
              | None => []
              end;
     headers := [("Authorization", "Bearer " +:+ tok)];
     body := None |}.

Definition getEscalations_response (r : FetchResult EscalationList)
  : Promise EscalationList := checked r.

(** *** [operatorReply]: only [res.ok] is looked at. *)
Definition operatorReply_request
    (tok escalationId msg : string) (closeTicket : bool) : Request :=
  {| method := "POST";
     path := API_BASE +:+ "/operator/reply";
     query := [];
     headers := json_headers ++ [("Authorization", "Bearer " +:+ tok)];
     body := Some [("escalation_id", JString escalationId);
                   ("message", JString msg);
                   ("close_ticket", JBool closeTicket)] |}.

Definition operatorReply_response (r : FetchResult unit) : Promise unit :=
  match r with
  | NetworkError => Rejected TypeError
  | Http st _ =>
      if ok st then Resolved tt
      else Rejected (ApiError ("API error: " +:+ Js.String_of_nat st))
  end.

End Api.

(** ** The chat page ([ChatPage], first file of [src/unnamed/part_001]) *)

Module ChatPage.

Record Message := {
  role : Api.Role;
  content : string;
  confidence : option Q;
  needsEscalation : option bool;
  youtubeLinks : option (list string);
  sourceArticles : option (list string);
  suggestedTopics : option (list Api.SuggestedTopic);
  responseType : option Api.ResponseType
}.

(** An object literal with only [role] and [content]. *)
Definition plain (r : Api.Role) (text : string) : Message :=
  {| role := r; content := text; confidence := None;
     needsEscalation := None; youtubeLinks := None; sourceArticles := None;
     suggestedTopics := None; responseType := None |}.

Record State := {
  messages : list Message;
  input : string;
  loading : bool;
  sessionId : option string;
  showEscalation : bool;
  escalationSent : bool;
  contactInfo : string;
  escalationReason : string
}.

Definition greeting : string :=
  "Здравствуйте! Я ИИ-ассистент техподдержки Фармбазис. Задайте вопрос по работе с программой.".

Definition initial : State :=
  {| messages := [plain Api.assistant greeting];
     input := "";
     loading := false;
     sessionId := None;
     showEscalation := false;
     escalationSent := false;
     contactInfo := "";
     escalationReason := "" |}.

(** The state setters. *)
Definition setMessages (f : list Message → list Message) (s : State) :=
  {| messages := f (messages s); input := input s; loading := loading s;
     sessionId := sessionId s; showEscalation := showEscalation s;
     escalationSent := escalationSent s; contactInfo := contactInfo s;
     escalationReason := escalationReason s |}.
Definition setInput (v : string) (s : State) :=
  {| messages := messages s; input := v; loading := loading s;
     sessionId := sessionId s; showEscalation := showEscalation s;
     escalationSent := escalationSent s; contactInfo := contactInfo s;
     escalationReason := escalationReason s |}.
Definition setLoading (v : bool) (s : State) :=
  {| messages := messages s; input := input s; loading := v;
     sessionId := sessionId s; showEscalation := showEscalation s;
     escalationSent := escalationSent s; contactInfo := contactInfo s;
     escalationReason := escalationReason s |}.
Definition setSessionId (v : option string) (s : State) :=
  {| messages := messages s; input := input s; loading := loading s;
     sessionId := v; showEscalation := showEscalation s;
     escalationSent := escalationSent s; contactInfo := contactInfo s;
     escalationReason := escalationReason s |}.
Definition setShowEscalation (v : bool) (s : State) :=
  {| messages := messages s; input := input s; loading := loading s;
     sessionId := sessionId s; showEscalation := v;
     escalationSent := escalationSent s; contactInfo := contactInfo s;
     escalationReason := escalationReason s |}.
Definition setEscalationSent (v : bool) (s : State) :=
  {| messages := messages s; input := input s; loading := loading s;
     sessionId := sessionId s; showEscalation := showEscalation s;
     escalationSent := v; contactInfo := contactInfo s;
     escalationReason := escalationReason s |}.
Definition setContactInfo (v : string) (s : State) :=
  {| messages := messages s; input := input s; loading := loading s;
     sessionId := sessionId s; showEscalation := showEscalation s;
     escalationSent := escalationSent s; contactInfo := v;
     escalationReason := escalationReason s |}.
Definition setEscalationReason (v : string) (s : State) :=
  {| messages := messages s; input := input s; loading := loading s;
     sessionId := sessionId s; showEscalation := showEscalation s;
     escalationSent := escalationSent s; contactInfo := contactInfo s;
     escalationReason := v |}.

(** [setMessages(prev => [...prev, m])] *)
Definition push (m : Message) : State → State :=
  setMessages (λ prev, prev ++ [m]).

(** What the continuation of [sendMessage] and of [handleTopicSelect]
    reads from the render in which the handler was created. *)
Record Closure := { captured_sessionId : option string }.

Definition is_clarification (t : Api.ResponseType) : bool :=
  match t with
  | Api.Clarification => true
  | Api.Answer => false
  end.

Definition botMessage (response : Api.ChatResponse) : Message :=
  {| role := Api.assistant;
     content := Api.answer response;
     confidence := Some (Api.confidence response);
     needsEscalation := Some (Api.needs_escalation response);
     youtubeLinks := Some (Api.youtube_links response);
     sourceArticles := Some (Api.source_articles response);
     suggestedTopics := Api.suggested_topics response;
     responseType := Some (Api.response_type response) |}.

(** The [try] block after the [await], shared by both senders. *)
Definition on_response (c : Closure) (response : Api.ChatResponse)
    (s : State) : State :=
  let s1 := if negb (Js.truthy_opt (captured_sessionId c))
            then setSessionId (Some (Api.session_id response)) s
            else s in
  let s2 := push (botMessage response) s1 in
  if Api.needs_escalation response
     && negb (is_clarification (Api.response_type response))
  then setShowEscalation true s2
  else s2.

(** *** [sendMessage] *)
Definition sendMessage_error : string :=
  "Ошибка обработки запроса. Попробуйте позже или обратитесь к оператору.".

Definition sendMessage_begin (s : State)
  : option (State * Api.Request * Closure) :=
  let trimmed := Js.trim (input s) in
  if negb (Js.truthy trimmed) || loading s then None
  else
    let userMessage := plain Api.user trimmed in
    Some (setLoading true (setInput "" (push userMessage s)),
          Api.sendMessage_request trimmed (Js.or_undefined (sessionId s)),
          {| captured_sessionId := sessionId s |}).

Definition sendMessage_end (c : Closure)
    (p : Api.Promise Api.ChatResponse) (s : State) : State :=
  setLoading false
    match p with
    | Api.Resolved response => on_response c response s
    | Api.Rejected _ => push (plain Api.assistant sendMessage_error) s
    end.

(** *** [handleEscalation] *)
Definition handleEscalation_error : string :=
  "Не удалось создать заявку. Попробуйте ещё раз.".

Definition handleEscalation_begin (s : State) : option Api.Request :=
  match Js.or_undefined (sessionId s) with
  | None => None
  | Some sid =>
      Some (Api.createEscalation_request sid
              (Js.or_undefined (Some (escalationReason s)))
              (Js.or_undefined (Some (contactInfo s))))
  end.

Definition handleEscalation_end
    (p : Api.Promise Api.EscalationResponse) (s : State) : State :=
  match p with
  | Api.Resolved response =>
      setShowEscalation false
        (setEscalationSent true
           (push (plain Api.assistant ("✅ " +:+ Api.message response)) s))
  | Api.Rejected _ => push (plain Api.assistant handleEscalation_error) s
  end.

(** *** [handleFeedback]: failures are ignored and nothing is updated. *)
Definition handleFeedback (rating : Z) (s : State) : option Api.Request :=
  match Js.or_undefined (sessionId s) with
  | None => None
  | Some sid =>
      Some (Api.sendFeedback_request sid rating
              (Z.of_nat (length (messages s)) - 1) None)
  end.

(** *** [handleTopicSelect] *)
Definition handleTopicSelect_error : string :=
  "Ошибка обработки. Попробуйте позже.".

Definition handleTopicSelect_begin (topicIndex : nat) (s : State)
  : option (State * Api.Request * Closure) :=
  if loading s then None
  else
    let text := Js.String_of_nat (topicIndex + 1) in
    let userMessage := plain Api.user text in
    Some (setLoading true (push userMessage s),
          Api.sendMessage_request text (Js.or_undefined (sessionId s)),
          {| captured_sessionId := sessionId s |}).

Definition handleTopicSelect_end (c : Closure)
    (p : Api.Promise Api.ChatResponse) (s : State) : State :=
  setLoading false
    match p with
    | Api.Resolved response => on_response c response s
    | Api.Rejected _ => push (plain Api.assistant handleTopicSelect_error) s
    end.

(** *** [handleKeyDown] *)
Definition handleKeyDown (key : string) (shiftKey : bool) (s : State)
  : option (State * Api.Request * Closure) :=
  if bool_decide (key = "Enter") && negb shiftKey
  then sendMessage_begin s
  else None.

(** *** The rendered page, as far as it decides what the user can do. *)
Record TopicButton := {
  tb_label : string;
  tb_title : string;
  tb_disabled : bool;
  tb_topicIndex : nat
}.

Record MessageView := {
  mv_role : Api.Role;
  mv_markdown : string;
  mv_youtube : option (list string);
  mv_clarification : option (list TopicButton);
  mv_feedback : bool
}.

Record EscalationForm := {
  ef_contactInfo : string;
  ef_escalationReason : string
}.

Record View := {
  v_messages : list MessageView;
  v_typing : bool;
  v_escalation : option EscalationForm;
  v_input : string;
  v_input_disabled : bool;
  v_send_disabled : bool
}.

Definition topic_button (s : State) (j : nat) (topic : Api.SuggestedTopic)
  : TopicButton :=
  {| tb_label := Js.String_of_nat (j + 1) +:+ ". " +:+ Api.title topic;
     tb_title := Api.snippet topic;
     tb_disabled := loading s;
     tb_topicIndex := j |}.

Definition is_assistant (r : Api.Role) : bool :=
  match r with
  | Api.assistant => true
  | Api.user => false
  end.

Definition render_message (s : State) (i : nat) (msg : Message)
  : MessageView :=
  {| mv_role := role msg;
     mv_markdown := content msg;
     mv_youtube :=
       match youtubeLinks msg with
       | Some (l :: ls) => Some (l :: ls)
       | _ => None
       end;
     mv_clarification :=
       match responseType msg, suggestedTopics msg with
       | Some Api.Clarification, Some (t :: ts) =>
           Some (imap (topic_button s) (t :: ts))
       | _, _ => None
       end;
     mv_feedback := is_assistant (role msg) && (0 <? i) |}.

Definition render (s : State) : View :=
  {| v_messages := imap (render_message s) (messages s);
     v_typing := loading s;
     v_escalation :=
       if showEscalation s && negb (escalationSent s)
       then Some {| ef_contactInfo := contactInfo s;
                    ef_escalationReason := escalationReason s |}
       else None;
     v_input := input s;
     v_input_disabled := loading s;
     v_send_disabled := negb (Js.truthy (Js.trim (input s))) || loading s |}.

Definition topic_button_at (v : View) (i j : nat) : option TopicButton :=
  match v_messages v !! i with
  | Some mv =>
      match mv_clarification mv with
      | Some buttons => buttons !! j
      | None => None
      end
  | None => None
  end.

(** *** The page with its requests in flight *)
Inductive Call :=
| CallSend (c : Closure)
| CallTopic (c : Closure)
| CallEscalation
| CallFeedback.

Inductive Settled :=
| SettledChat (r : Api.FetchResult Api.ChatResponse)
| SettledEscalation (r : Api.FetchResult Api.EscalationResponse)
| SettledFeedback (r : Api.FetchResult unit).

Inductive Event :=
| ChangeInput (v : string)
| ClickSend
| KeyDown (key : string) (shiftKey : bool)
| ClickTopic (i j : nat)
| ClickFeedback (i : nat) (rating : Z)
| ChangeContactInfo (v : string)
| ChangeEscalationReason (v : string)
| ClickEscalate
| ClickContinue
| Settle (k : nat) (r : Settled).

Record Page := {
  state : State;
  calls : list Call
}.

Definition start : Page := {| state := initial; calls := [] |}.

Definition idle (p : Page) : Page * list Api.Request := (p, []).

Definition update (p : Page) (s : State) : Page * list Api.Request :=
  ({| state := s; calls := calls p |}, []).

Definition issue (p : Page) (s : State) (rq : Api.Request) (c : Call)
  : Page * list Api.Request :=
  ({| state := s; calls := calls p ++ [c] |}, [rq]).

Definition settle_call (c : Call) (r : Settled) (s : State) : option State :=
  match c, r with
  | CallSend cl, SettledChat r =>
      Some (sendMessage_end cl (Api.sendMessage_response r) s)
  | CallTopic cl, SettledChat r =>
      Some (handleTopicSelect_end cl (Api.sendMessage_response r) s)
  | CallEscalation, SettledEscalation r =>
      Some (handleEscalation_end (Api.createEscalation_response r) s)
  | CallFeedback, SettledFeedback _ => Some s
  | _, _ => None
  end.

(** One event of the page.  An event on a control that is not rendered,
    or is rendered disabled, leaves the page as it is. *)
Definition step (p : Page) (e : Event) : Page * list Api.Request :=
  let s := state p in
  let v := render s in
  match e with
  | ChangeInput x =>
      if v_input_disabled v then idle p else update p (setInput x s)
  | ClickSend =>
      if v_send_disabled v then idle p
      else match sendMessage_begin s with
           | Some (s', rq, c) => issue p s' rq (CallSend c)
           | None => idle p
           end
  | KeyDown key shiftKey =>
      if v_input_disabled v then idle p
      else match handleKeyDown key shiftKey s with
           | Some (s', rq, c) => issue p s' rq (CallSend c)
           | None => idle p
           end
  | ClickTopic i j =>
      match topic_button_at v i j with
      | Some b =>
          if tb_disabled b then idle p
          else match handleTopicSelect_begin (tb_topicIndex b) s with
               | Some (s', rq, c) => issue p s' rq (CallTopic c)
               | None => idle p
               end
      | None => idle p
      end
  | ClickFeedback i rating =>
      match mv_feedback <$> v_messages v !! i with
      | Some true =>
          match handleFeedback rating s with
          | Some rq => issue p s rq CallFeedback
          | None => idle p
          end
      | _ => idle p
      end
  | ChangeContactInfo x =>
      match v_escalation v with
      | Some _ => update p (setContactInfo x s)
      | None => idle p
      end
  | ChangeEscalationReason x =>
      match v_escalation v with
      | Some _ => update p (setEscalationReason x s)
      | None => idle p
      end
  | ClickEscalate =>
      match v_escalation v with
      | Some _ =>
          match handleEscalation_begin s with
          | Some rq => issue p s rq CallEscalation
          | None => idle p
          end
      | None => idle p
      end
  | ClickContinue =>
      match v_escalation v with
      | Some _ => update p (setShowEscalation false s)
      | None => idle p
      end
  | Settle k r =>
      match calls p !! k with
      | Some c =>
          match settle_call c r s with
          | Some s' => ({| state := s'; calls := delete k (calls p) |}, [])
          | None => idle p
          end
      | None => idle p
      end
  end.

Definition run : Page → list Event → Page * list Api.Request :=
  Trace.run step.

End ChatPage.

(** ** The chat widget ([frontend/src/widget/ChatWidget.tsx]) *)

Module ChatWidget.

Record Message := {
  role : Api.Role;
  content : string;
  youtubeLinks : option (list string);
  needsEscalation : option bool
}.

Definition plain (r : Api.Role) (text : string) : Message :=
  {| role := r; content := text; youtubeLinks := None;
     needsEscalation := None |}.

Record State := {
  isOpen : bool;
  messages : list Message;
  input : string;
  loading : bool;
  sessionId : option string;
  unread : nat
}.

Definition greeting : string := "Здравствуйте! Чем могу помочь? 💊".

Definition initial : State :=
  {| isOpen := false;
     messages := [plain Api.assistant greeting];
     input := "";
     loading := false;
     sessionId := None;
     unread := 0 |}.

Definition setIsOpen (v : bool) (s : State) :=
  {| isOpen := v; messages := messages s; input := input s;
     loading := loading s; sessionId := sessionId s; unread := unread s |}.
Definition setMessages (f : list Message → list Message) (s : State) :=
  {| isOpen := isOpen s; messages := f (messages s); input := input s;
     loading := loading s; sessionId := sessionId s; unread := unread s |}.
Definition setInput (v : string) (s : State) :=
  {| isOpen := isOpen s; messages := messages s; input := v;
     loading := loading s; sessionId := sessionId s; unread := unread s |}.
Definition setLoading (v : bool) (s : State) :=
  {| isOpen := isOpen s; messages := messages s; input := input s;
     loading := v; sessionId := sessionId s; unread := unread s |}.
Definition setSessionId (v : option string) (s : State) :=
  {| isOpen := isOpen s; messages := messages s; input := input s;
     loading := loading s; sessionId := v; unread := unread s |}.
Definition setUnread (f : nat → nat) (s : State) :=
  {| isOpen := isOpen s; messages := messages s; input := input s;
     loading := loading s; sessionId := sessionId s;
     unread := f (unread s) |}.

Definition push (m : Message) : State → State :=
  setMessages (λ prev, prev ++ [m]).

(** The effect on [[messages, isOpen]]: it runs after every commit that
    replaced one of the two. *)
Definition useEffect (s : State) : State :=
  if isOpen s then setUnread (λ _, 0) s else s.

Record Closure := {
  captured_sessionId : option string;
  captured_isOpen : bool
}.

(** *** [sendMessage] *)
Definition sendMessage_error : string :=
  "Ошибка соединения. Попробуйте позже.".

Definition escalation_hint : string :=
  "💡 Я не нашёл точного ответа. Нажмите кнопку ниже, чтобы связаться с оператором, или задайте вопрос иначе.".

Definition botMsg (response : Api.ChatResponse) : Message :=
  {| role := Api.assistant;
     content := Api.answer response;
     youtubeLinks := Some (Api.youtube_links response);
     needsEscalation := Some (Api.needs_escalation response) |}.

Definition sendMessage_begin (s : State)
  : option (State * Api.Request * Closure) :=
  let trimmed := Js.trim (input s) in
  if negb (Js.truthy trimmed) || loading s then None
  else
    Some (setLoading true (setInput "" (push (plain Api.user trimmed) s)),
          Api.sendMessage_request trimmed (Js.or_undefined (sessionId s)),
          {| captured_sessionId := sessionId s;
             captured_isOpen := isOpen s |}).

Definition sendMessage_end (c : Closure)
    (p : Api.Promise Api.ChatResponse) (s : State) : State :=
  setLoading false
    match p with
    | Api.Resolved response =>
        let s1 := if negb (Js.truthy_opt (captured_sessionId c))
                  then setSessionId (Some (Api.session_id response)) s
                  else s in
        let s2 := push (botMsg response) s1 in
        let s3 := if negb (captured_isOpen c)
                  then setUnread (λ prev, prev + 1) s2
                  else s2 in
        if Api.needs_escalation response
           && Js.truthy (Api.session_id response)
        then push (plain Api.assistant escalation_hint) s3
        else s3
    | Api.Rejected _ => push (plain Api.assistant sendMessage_error) s
    end.

(** *** [handleEscalation] *)
Definition handleEscalation_begin (s : State) : option Api.Request :=
  match Js.or_undefined (sessionId s) with
  | None => None
  | Some sid => Some (Api.createEscalation_request sid None None)
  end.

Definition handleEscalation_end
    (p : Api.Promise Api.EscalationResponse) (s : State)
  : option State :=
  match p with
  | Api.Resolved res =>
      Some (push (plain Api.assistant ("✅ " +:+ Api.message res)) s)
  | Api.Rejected _ => None
  end.

(** *** [handleKeyDown] *)
Definition handleKeyDown (key : string) (shiftKey : bool) (s : State)
  : option (State * Api.Request * Closure) :=
  if bool_decide (key = "Enter") && negb shiftKey
  then sendMessage_begin s
  else None.

(** *** The rendered widget *)
Record MessageView := {
  mv_role : Api.Role;
  mv_markdown : string;
  mv_youtube : list string;
  mv_escalation_button : bool
}.

Record Window := {
  w_messages : list MessageView;
  w_typing : bool;
  w_input : string;
  w_input_disabled : bool;
  w_send_disabled : bool
}.

Record View := {
  v_badge : option nat;
  v_window : option Window
}.

Definition is_true (o : option bool) : bool :=
  match o with
  | Some b => b
  | None => false
  end.

Definition render_message (msg : Message) : MessageView :=
  {| mv_role := role msg;
     mv_markdown := content msg;
     mv_youtube := default [] (youtubeLinks msg);
     mv_escalation_button := is_true (needsEscalation msg) |}.

(** [None] is the [return null] on the operator route. *)
Definition render (pathname : string) (s : State) : option View :=
  if String.prefix "/operator" pathname then None
  else
    Some {| v_badge := if negb (isOpen s) && (0 <? unread s)
                       then Some (unread s) else None;
            v_window :=
              if isOpen s
              then Some {| w_messages := render_message <$> messages s;
                           w_typing := loading s;
                           w_input := input s;
                           w_input_disabled := loading s;
                           w_send_disabled :=
                             negb (Js.truthy (Js.trim (input s)))
                             || loading s |}
              else None |}.

(** *** The widget with its requests in flight *)
Inductive Call :=
| CallSend (c : Closure)
| CallEscalation.

Inductive Settled :=
| SettledChat (r : Api.FetchResult Api.ChatResponse)
| SettledEscalation (r : Api.FetchResult Api.EscalationResponse).

Inductive Event :=
| ClickToggle
| ClickClose
| ChangeInput (v : string)
| ClickSend
| KeyDown (key : string) (shiftKey : bool)
| ClickEscalate (i : nat)
| Settle (k : nat) (r : Settled).

Record Widget := {
  pathname : string;
  state : State;
  calls : list Call
}.

Definition start (location : string) : Widget :=
  {| pathname := location; state := initial; calls := [] |}.

Definition idle (w : Widget) : Widget * list Api.Request := (w, []).

Definition update (w : Widget) (s : State) : Widget * list Api.Request :=
  ({| pathname := pathname w; state := s; calls := calls w |}, []).

Definition issue (w : Widget) (s : State) (rq : Api.Request) (c : Call)
  : Widget * list Api.Request :=
  ({| pathname := pathname w; state := s; calls := calls w ++ [c] |}, [rq]).

Definition settle_call (c : Call) (r : Settled) (s : State) : option State :=
  match c, r with
  | CallSend cl, SettledChat r =>
      Some (useEffect (sendMessage_end cl (Api.sendMessage_response r) s))
  | CallEscalation, SettledEscalation r =>
      Some (from_option useEffect s
              (handleEscalation_end (Api.createEscalation_response r) s))
  | _, _ => None
  end.

Definition escalation_button_at (win : Window) (i : nat) : bool :=
  match w_messages win !! i with
  | Some mv => mv_escalation_button mv
  | None => false
  end.

Definition settle (w : Widget) (k : nat) (r : Settled)
  : Widget * list Api.Request :=
  match calls w !! k with
  | Some c =>
      match settle_call c r (state w) with
      | Some s' => ({| pathname := pathname w; state := s';
                       calls := delete k (calls w) |}, [])
      | None => idle w
      end
  | None => idle w
  end.

(** One event of the widget.  An event on a control that is not rendered,
    or is rendered disabled, leaves the widget as it is. *)
Definition step (w : Widget) (e : Event) : Widget * list Api.Request :=
  let s := state w in
  match e, render (pathname w) s with
  | Settle k r, _ => settle w k r
  | _, None => idle w
  | ClickToggle, Some _ =>
      update w (useEffect (setIsOpen (negb (isOpen s)) s))
  | e, Some v =>
      match e, v_window v with
      | ClickClose, Some _ => update w (setIsOpen false s)
      | ChangeInput x, Some win =>
          if w_input_disabled win then idle w else update w (setInput x s)
      | ClickSend, Some win =>
          if w_send_disabled win then idle w
          else match sendMessage_begin s with
               | Some (s', rq, c) => issue w (useEffect s') rq (CallSend c)
               | None => idle w
               end
      | KeyDown key shiftKey, Some win =>
          if w_input_disabled win then idle w
          else match handleKeyDown key shiftKey s with
               | Some (s', rq, c) => issue w (useEffect s') rq (CallSend c)
               | None => idle w
               end
      | ClickEscalate i, Some win =>
          if escalation_button_at win i then
            match handleEscalation_begin s with
            | Some rq => issue w s rq CallEscalation
            | None => idle w
            end
          else idle w
      | _, _ => idle w
      end
  end.

Definition run : Widget → list Event → Widget * list Api.Request :=
  Trace.run step.

End ChatWidget.

(** ** The chat widget with topic selection
    ([ChatWidget], third file of [src/unnamed/part_001]) *)

Module ChatWidgetClarify.

Record Message := {
  role : Api.Role;
  content : string;
  youtubeLinks : option (list string);
  needsEscalation : option bool;
  suggestedTopics : option (list Api.SuggestedTopic);
  responseType : option Api.ResponseType
}.

Definition plain (r : Api.Role) (text : string) : Message :=
  {| role := r; content := text; youtubeLinks := None;
     needsEscalation := None; suggestedTopics := None;
     responseType := None |}.

Record State := {
  isOpen : bool;
  messages : list Message;
  input : string;
  loading : bool;
  sessionId : option string;
  unread : nat
}.

Definition greeting : string := "Здравствуйте! Чем могу помочь? 💊".

Definition initial : State :=
  {| isOpen := false;
     messages := [plain Api.assistant greeting];
     input := "";
     loading := false;
     sessionId := None;
     unread := 0 |}.

Definition setIsOpen (v : bool) (s : State) :=
  {| isOpen := v; messages := messages s; input := input s;
     loading := loading s; sessionId := sessionId s; unread := unread s |}.
Definition setMessages (f : list Message → list Message) (s : State) :=
  {| isOpen := isOpen s; messages := f (messages s); input := input s;
     loading := loading s; sessionId := sessionId s; unread := unread s |}.
Definition setInput (v : string) (s : State) :=
  {| isOpen := isOpen s; messages := messages s; input := v;
     loading := loading s; sessionId := sessionId s; unread := unread s |}.
Definition setLoading (v : bool) (s : State) :=
  {| isOpen := isOpen s; messages := messages s; input := input s;
     loading := v; sessionId := sessionId s; unread := unread s |}.
Definition setSessionId (v : option string) (s : State) :=
  {| isOpen := isOpen s; messages := messages s; input := input s;
     loading := loading s; sessionId := v; unread := unread s |}.
Definition setUnread (f : nat → nat) (s : State) :=
  {| isOpen := isOpen s; messages := messages s; input := input s;
     loading := loading s; sessionId := sessionId s;
     unread := f (unread s) |}.

Definition push (m : Message) : State → State :=
  setMessages (λ prev, prev ++ [m]).

Definition useEffect (s : State) : State :=
  if isOpen s then setUnread (λ _, 0) s else s.

Record Closure := {
  captured_sessionId : option string;
  captured_isOpen : bool
}.

Definition is_clarification (t : Api.ResponseType) : bool :=
  match t with
  | Api.Clarification => true
  | Api.Answer => false
  end.

Definition connection_error : string :=
  "Ошибка соединения. Попробуйте позже.".

Definition escalation_hint : string :=
  "💡 Ответ не найден. Свяжитесь с оператором или задайте вопрос иначе.".

Definition botMsg (response : Api.ChatResponse) : Message :=
  {| role := Api.assistant;
     content := Api.answer response;
     youtubeLinks := Some (Api.youtube_links response);
     needsEscalation := Some (Api.needs_escalation response);
     suggestedTopics := Api.suggested_topics response;
     responseType := Some (Api.response_type response) |}.

(** *** [sendMessage] *)
Definition sendMessage_begin (s : State)
  : option (State * Api.Request * Closure) :=
  let trimmed := Js.trim (input s) in
  if negb (Js.truthy trimmed) || loading s then None
  else
    Some (setLoading true (setInput "" (push (plain Api.user trimmed) s)),
          Api.sendMessage_request trimmed (Js.or_undefined (sessionId s)),
          {| captured_sessionId := sessionId s;
             captured_isOpen := isOpen s |}).

Definition sendMessage_end (c : Closure)
    (p : Api.Promise Api.ChatResponse) (s : State) : State :=
  setLoading false
    match p with
    | Api.Resolved response =>
        let s1 := if negb (Js.truthy_opt (captured_sessionId c))
                  then setSessionId (Some (Api.session_id response)) s
                  else s in
        let s2 := push (botMsg response) s1 in
        let s3 := if negb (captured_isOpen c)
                  then setUnread (λ prev, prev + 1) s2
                  else s2 in
        if Api.needs_escalation response
           && Js.truthy (Api.session_id response)
           && negb (is_clarification (Api.response_type response))
        then push (plain Api.assistant escalation_hint) s3
        else s3
    | Api.Rejected _ => push (plain Api.assistant connection_error) s
    end.

(** *** [handleEscalation] *)
Definition handleEscalation_begin (s : State) : option Api.Request :=
  match Js.or_undefined (sessionId s) with
  | None => None
  | Some sid => Some (Api.createEscalation_request sid None None)
  end.

Definition handleEscalation_end
    (p : Api.Promise Api.EscalationResponse) (s : State)
  : option State :=
  match p with
  | Api.Resolved res =>
      Some (push (plain Api.assistant ("✅ " +:+ Api.message res)) s)
  | Api.Rejected _ => None
  end.

(** *** [handleKeyDown] *)
Definition handleKeyDown (key : string) (shiftKey : bool) (s : State)
  : option (State * Api.Request * Closure) :=
  if bool_decide (key = "Enter") && negb shiftKey
  then sendMessage_begin s
  else None.

(** *** [handleTopicSelect] *)
Definition handleTopicSelect_begin (topicIndex : nat) (s : State)
  : option (State * Api.Request * Closure) :=
  if loading s then None
  else
    let text := Js.String_of_nat (topicIndex + 1) in
    Some (setLoading true (push (plain Api.user text) s),
          Api.sendMessage_request text (Js.or_undefined (sessionId s)),
          {| captured_sessionId := sessionId s;
             captured_isOpen := isOpen s |}).

Definition handleTopicSelect_end (c : Closure)
    (p : Api.Promise Api.ChatResponse) (s : State) : State :=
  setLoading false
    match p with
    | Api.Resolved response =>
        let s1 := if negb (Js.truthy_opt (captured_sessionId c))
                  then setSessionId (Some (Api.session_id response)) s
                  else s in
        push (botMsg response) s1
    | Api.Rejected _ => push (plain Api.assistant connection_error) s
    end.

(** *** The rendered widget *)
Record TopicButton := {
  tb_label : string;
  tb_title : string;
  tb_disabled : bool;
  tb_topicIndex : nat
}.

Record MessageView := {
  mv_role : Api.Role;
  mv_markdown : string;
  mv_youtube : list string;
  mv_clarification : option (list TopicButton);
  mv_escalation_button : bool
}.

Record Window := {
  w_messages : list MessageView;
  w_typing : bool;
  w_input : string;
  w_input_disabled : bool;
  w_send_disabled : bool
}.

Record View := {
  v_badge : option nat;
  v_window : option Window
}.

Definition is_true (o : option bool) : bool :=
  match o with
  | Some b => b
  | None => false
  end.

Definition topic_button (s : State) (j : nat) (topic : Api.SuggestedTopic)
  : TopicButton :=
  {| tb_label := Js.String_of_nat (j + 1) +:+ ". " +:+ Api.title topic;
     tb_title := Api.snippet topic;
     tb_disabled := loading s;
     tb_topicIndex := j |}.

(** [msg.responseType === 'clarification'] for an optional field. *)
Definition is_clarification_opt (o : option Api.ResponseType) : bool :=
  match o with
  | Some t => is_clarification t
  | None => false
  end.

Definition render_message (s : State) (msg : Message) : MessageView :=
  {| mv_role := role msg;
     mv_markdown := content msg;
     mv_youtube := default [] (youtubeLinks msg);
     mv_clarification :=
       match responseType msg, suggestedTopics msg with
       | Some Api.Clarification, Some (t :: ts) =>
           Some (imap (topic_button s) (t :: ts))
       | _, _ => None
       end;
     mv_escalation_button :=
       is_true (needsEscalation msg)
       && negb (is_clarification_opt (responseType msg)) |}.

Definition render (pathname : string) (s : State) : option View :=
  if String.prefix "/operator" pathname then None
  else
    Some {| v_badge := if negb (isOpen s) && (0 <? unread s)
                       then Some (unread s) else None;
            v_window :=
              if isOpen s
              then Some {| w_messages := render_message s <$> messages s;
                           w_typing := loading s;
                           w_input := input s;
                           w_input_disabled := loading s;
                           w_send_disabled :=
                             negb (Js.truthy (Js.trim (input s)))
                             || loading s |}
              else None |}.

(** *** The widget with its requests in flight *)
Inductive Call :=
| CallSend (c : Closure)
| CallTopic (c : Closure)
| CallEscalation.

Inductive Settled :=
| SettledChat (r : Api.FetchResult Api.ChatResponse)
| SettledEscalation (r : Api.FetchResult Api.EscalationResponse).

Inductive Event :=
| ClickToggle
| ClickClose
| ChangeInput (v : string)
| ClickSend
| KeyDown (key : string) (shiftKey : bool)
| ClickTopic (i j : nat)
| ClickEscalate (i : nat)
| Settle (k : nat) (r : Settled).

Record Widget := {
  pathname : string;
  state : State;
  calls : list Call
}.

Definition start (location : string) : Widget :=
  {| pathname := location; state := initial; calls := [] |}.

Definition idle (w : Widget) : Widget * list Api.Request := (w, []).

Definition update (w : Widget) (s : State) : Widget * list Api.Request :=
  ({| pathname := pathname w; state := s; calls := calls w |}, []).

Definition issue (w : Widget) (s : State) (rq : Api.Request) (c : Call)
  : Widget * list Api.Request :=
  ({| pathname := pathname w; state := s; calls := calls w ++ [c] |}, [rq]).

Definition settle_call (c : Call) (r : Settled) (s : State) : option State :=
  match c, r with
  | CallSend cl, SettledChat r =>
      Some (useEffect (sendMessage_end cl (Api.sendMessage_response r) s))
  | CallTopic cl, SettledChat r =>
      Some (useEffect
              (handleTopicSelect_end cl (Api.sendMessage_response r) s))
  | CallEscalation, SettledEscalation r =>
      Some (from_option useEffect s
              (handleEscalation_end (Api.createEscalation_response r) s))
  | _, _ => None
  end.

Definition settle (w : Widget) (k : nat) (r : Settled)
  : Widget * list Api.Request :=
  match calls w !! k with
  | Some c =>
      match settle_call c r (state w) with
      | Some s' => ({| pathname := pathname w; state := s';
                       calls := delete k (calls w) |}, [])
      | None => idle w
      end
  | None => idle w
  end.

Definition topic_button_at (win : Window) (i j : nat) : option TopicButton :=
  match w_messages win !! i with
  | Some mv =>
      match mv_clarification mv with
      | Some buttons => buttons !! j
      | None => None
      end
  | None => None
  end.

Definition escalation_button_at (win : Window) (i : nat) : bool :=
  match w_messages win !! i with
  | Some mv => mv_escalation_button mv
  | None => false
  end.

Definition step (w : Widget) (e : Event) : Widget * list Api.Request :=
  let s := state w in
  match e, render (pathname w) s with
  | Settle k r, _ => settle w k r
  | _, None => idle w
  | ClickToggle, Some _ =>
      update w (useEffect (setIsOpen (negb (isOpen s)) s))
  | e, Some v =>
      match e, v_window v with
      | ClickClose, Some _ => update w (setIsOpen false s)
      | ChangeInput x, Some win =>
          if w_input_disabled win then idle w else update w (setInput x s)
      | ClickSend, Some win =>
          if w_send_disabled win then idle w
          else match sendMessage_begin s with
               | Some (s', rq, c) => issue w (useEffect s') rq (CallSend c)
               | None => idle w
               end
      | KeyDown key shiftKey, Some win =>
          if w_input_disabled win then idle w
          else match handleKeyDown key shiftKey s with
               | Some (s', rq, c) => issue w (useEffect s') rq (CallSend c)
               | None => idle w
               end
      | ClickTopic i j, Some win =>
          match topic_button_at win i j with
          | Some b =>
              if tb_disabled b then idle w
              else match handleTopicSelect_begin (tb_topicIndex b) s with
                   | Some (s', rq, c) =>
                       issue w (useEffect s') rq (CallTopic c)
                   | None => idle w
                   end
          | None => idle w
          end
      | ClickEscalate i, Some win =>
          if escalation_button_at win i then
            match handleEscalation_begin s with
            | Some rq => issue w s rq CallEscalation
            | None => idle w
            end
          else idle w
      | _, _ => idle w
      end
  end.

Definition run : Widget → list Event → Widget * list Api.Request :=
  Trace.run step.

End ChatWidgetClarify.

(** ** The operator panel ([OperatorPanel], [src/unnamed/part_000]) *)

Module OperatorPanel.

Record State := {
  token : option string;
  username : string;
  password : string;
  loginError : string;
  escalations : list Api.EscalationDetail;
  pendingCount : nat;
  selectedId : option string;
  replyText : string;
  closeTicket : bool;
  filter : string;
  loading : bool
}.

(** The initial values of the [useState] hooks; the token is read from
    [localStorage]. *)
Definition initial (storage : gmap string string) : State :=
  {| token := storage !! "op_token";
     username := "";
     password := "";
     loginError := "";
     escalations := [];
     pendingCount := 0;
     selectedId := None;
     replyText := "";
     closeTicket := false;
     filter := "";
     loading := false |}.

Definition setToken (v : option string) (s : State) :=
  {| token := v; username := username s; password := password s;
     loginError := loginError s; escalations := escalations s;
     pendingCount := pendingCount s; selectedId := selectedId s;
     replyText := replyText s; closeTicket := closeTicket s;
     filter := filter s; loading := loading s |}.
Definition setUsername (v : string) (s : State) :=
  {| token := token s; username := v; password := password s;
     loginError := loginError s; escalations := escalations s;
     pendingCount := pendingCount s; selectedId := selectedId s;
     replyText := replyText s; closeTicket := closeTicket s;
     filter := filter s; loading := loading s |}.
Definition setPassword (v : string) (s : State) :=
  {| token := token s; username := username s; password := v;
     loginError := loginError s; escalations := escalations s;
     pendingCount := pendingCount s; selectedId := selectedId s;
     replyText := replyText s; closeTicket := closeTicket s;
     filter := filter s; loading := loading s |}.
Definition setLoginError (v : string) (s : State) :=
  {| token := token s; username := username s; password := password s;
     loginError := v; escalations := escalations s;
     pendingCount := pendingCount s; selectedId := selectedId s;
     replyText := replyText s; closeTicket := closeTicket s;
     filter := filter s; loading := loading s |}.
Definition setEscalations (v : list Api.EscalationDetail) (s : State) :=
  {| token := token s; username := username s; password := password s;
     loginError := loginError s; escalations := v;
     pendingCount := pendingCount s; selectedId := selectedId s;
     replyText := replyText s; closeTicket := closeTicket s;
     filter := filter s; loading := loading s |}.
Definition setPendingCount (v : nat) (s : State) :=
  {| token := token s; username := username s; password := password s;
     loginError := loginError s; escalations := escalations s;
     pendingCount := v; selectedId := selectedId s;
     replyText := replyText s; closeTicket := closeTicket s;
     filter := filter s; loading := loading s |}.
Definition setSelectedId (v : option string) (s : State) :=
  {| token := token s; username := username s; password := password s;
     loginError := loginError s; escalations := escalations s;
     pendingCount := pendingCount s; selectedId := v;
     replyText := replyText s; closeTicket := closeTicket s;
     filter := filter s; loading := loading s |}.
Definition setReplyText (v : string) (s : State) :=
  {| token := token s; username := username s; password := password s;
     loginError := loginError s; escalations := escalations s;
     pendingCount := pendingCount s; selectedId := selectedId s;
     replyText := v; closeTicket := closeTicket s;
     filter := filter s; loading := loading s |}.
Definition setCloseTicket (v : bool) (s : State) :=
  {| token := token s; username := username s; password := password s;
     loginError := loginError s; escalations := escalations s;
     pendingCount := pendingCount s; selectedId := selectedId s;
     replyText := replyText s; closeTicket := v;
     filter := filter s; loading := loading s |}.
Definition setFilter (v : string) (s : State) :=
  {| token := token s; username := username s; password := password s;
     loginError := loginError s; escalations := escalations s;
     pendingCount := pendingCount s; selectedId := selectedId s;
     replyText := replyText s; closeTicket := closeTicket s;
     filter := v; loading := loading s |}.
Definition setLoading (v : bool) (s : State) :=
  {| token := token s; username := username s; password := password s;
     loginError := loginError s; escalations := escalations s;
     pendingCount := pendingCount s; selectedId := selectedId s;
     replyText := replyText s; closeTicket := closeTicket s;
     filter := filter s; loading := v |}.

(** The dependencies of [loadEscalations = useCallback(..., [token, filter])]:
    a callback created in some render reads that render's values. *)
Record Callback := {
  cb_token : option string;
  cb_filter : string
}.

Global Instance Callback_eq_dec : EqDecision Callback.
Proof. solve_decision. Defined.

Definition loadEscalations_of (s : State) : Callback :=
  {| cb_token := token s; cb_filter := filter s |}.

(** [setInterval(loadEscalations, 15000)] *)
Record Interval := {
  delay : N;
  handler : Callback
}.

Inductive Call :=
| CallGetEscalations
| CallLogin
| CallReply (loadEscalations : Callback).

Inductive Settled :=
| SettledGetEscalations (r : Api.FetchResult Api.EscalationList)
| SettledLogin (r : Api.FetchResult Api.LoginResponse)
| SettledReply (r : Api.FetchResult unit).

(** The mounted component together with what it touches outside its
    state: [localStorage], the interval timer, the requests in flight and
    the alerts shown.  State setters of a component that is no longer
    mounted do nothing. *)
Record Panel := {
  mounted : bool;
  state : State;
  storage : gmap string string;
  interval : option Interval;
  calls : list Call;
  alerts : list string
}.

Definition with_state (f : State → State) (p : Panel) : Panel :=
  {| mounted := mounted p;
     state := if mounted p then f (state p) else state p;
     storage := storage p; interval := interval p; calls := calls p;
     alerts := alerts p |}.
Definition with_storage (f : gmap string string → gmap string string)
    (p : Panel) : Panel :=
  {| mounted := mounted p; state := state p; storage := f (storage p);
     interval := interval p; calls := calls p; alerts := alerts p |}.
Definition with_interval (v : option Interval) (p : Panel) : Panel :=
  {| mounted := mounted p; state := state p; storage := storage p;
     interval := v; calls := calls p; alerts := alerts p |}.
Definition with_calls (f : list Call → list Call) (p : Panel) : Panel :=
  {| mounted := mounted p; state := state p; storage := storage p;
     interval := interval p; calls := f (calls p); alerts := alerts p |}.
Definition with_alert (text : string) (p : Panel) : Panel :=
  {| mounted := mounted p; state := state p; storage := storage p;
     interval := interval p; calls := calls p;
     alerts := alerts p ++ [text] |}.

Definition idle (p : Panel) : Panel * list Api.Request := (p, []).

(** *** [loadEscalations], up to its [await] *)
Definition loadEscalations_begin (cb : Callback) (p : Panel)
  : Panel * list Api.Request :=
  match Js.or_undefined (cb_token cb) with
  | None => idle p
  | Some tok =>
      (with_calls (λ cs, cs ++ [CallGetEscalations])
         (with_state (setLoading true) p),
       [Api.getEscalations_request tok
          (Js.or_undefined (Some (cb_filter cb)))])
  end.

(** *** [loadEscalations], from its [await] on *)
Definition loadEscalations_end
    (r : Api.Promise Api.EscalationList) (p : Panel) : Panel :=
  with_state (setLoading false)
    match r with
    | Api.Resolved data =>
        with_state (setPendingCount (Api.pending_count data))
          (with_state (setEscalations (Api.escalations data)) p)
    | Api.Rejected _ =>
        with_storage (delete "op_token") (with_state (setToken None) p)
    end.

(** *** The polling effect: the cleanup of the previous run, then
    [loadEscalations()] and [setInterval(loadEscalations, 15000)]. *)
Definition useEffect (p : Panel) : Panel * list Api.Request :=
  let cb := loadEscalations_of (state p) in
  let '(p', out) := loadEscalations_begin cb (with_interval None p) in
  (with_interval (Some {| delay := 15000%N; handler := cb |}) p', out).

(** After a handler has run, the component renders again; the effect runs
    again when [loadEscalations] is a new callback. *)
Definition rerender (before : State) (p : Panel)
  : Panel * list Api.Request :=
  if mounted p then
    if decide (loadEscalations_of (state p) = loadEscalations_of before)
    then idle p
    else useEffect p
  else idle p.

(** *** [handleLogin] *)
Definition login_error : string := "Неверный логин или пароль".

Definition handleLogin_begin (p : Panel) : Panel * list Api.Request :=
  (with_calls (λ cs, cs ++ [CallLogin]) p,
   [Api.operatorLogin_request (username (state p)) (password (state p))]).

Definition handleLogin_end
    (r : Api.Promise Api.LoginResponse) (p : Panel) : Panel :=
  match r with
  | Api.Resolved res =>
      with_state (setLoginError "")
        (with_storage (insert "op_token" (Api.token res))
           (with_state (setToken (Some (Api.token res))) p))
  | Api.Rejected _ => with_state (setLoginError login_error) p
  end.

(** *** [handleReply] *)
Definition reply_error : string := "Ошибка отправки ответа".

Definition handleReply_begin (p : Panel) : Panel * list Api.Request :=
  let s := state p in
  match Js.or_undefined (token s), Js.or_undefined (selectedId s) with
  | Some tok, Some sel =>
      if Js.truthy (Js.trim (replyText s)) then
        (with_calls (λ cs, cs ++ [CallReply (loadEscalations_of s)]) p,
         [Api.operatorReply_request tok sel (replyText s) (closeTicket s)])
      else idle p
  | _, _ => idle p
  end.

Definition handleReply_end (loadEscalations : Callback)
    (r : Api.Promise unit) (p : Panel) : Panel * list Api.Request :=
  match r with
  | Api.Resolved _ =>
      loadEscalations_begin loadEscalations
        (with_state (setCloseTicket false) (with_state (setReplyText "") p))
  | Api.Rejected _ => idle (with_alert reply_error p)
  end.

(** *** [handleLogout] *)
Definition handleLogout (p : Panel) : Panel :=
  with_storage (delete "op_token") (with_state (setToken None) p).

(** *** The rendered panel, as far as it decides what the operator can
    do. *)
Definition selectedEscalation (s : State) : option Api.EscalationDetail :=
  match selectedId s with
  | Some sel =>
      list_find (λ e, Api.ed_escalation_id e = sel) (escalations s)
      ≫= λ '(_, e), Some e
  | None => None
  end.

Definition open_status (st : string) : bool :=
  bool_decide (st = "pending") || bool_decide (st = "in_progress").

Record ReplyArea := {
  ra_text : string;
  ra_closeTicket : bool;
  ra_send_disabled : bool
}.

Inductive View :=
| LoginForm (uname pwd error : string)
| Tickets (pending : nat) (active_filter : string)
          (items : list string)
          (detail : option Api.EscalationDetail)
          (reply : option ReplyArea).

Definition render (s : State) : View :=
  if negb (Js.truthy_opt (token s)) then
    LoginForm (username s) (password s) (loginError s)
  else
    Tickets (pendingCount s) (filter s)
      (Api.ed_escalation_id <$> escalations s)
      (selectedEscalation s)
      (match selectedEscalation s with
       | Some e =>
           if open_status (Api.ed_status e)
           then Some {| ra_text := replyText s;
                        ra_closeTicket := closeTicket s;
                        ra_send_disabled :=
                          negb (Js.truthy (Js.trim (replyText s))) |}
           else None
       | None => None
       end).

Inductive Event :=
| Mount
| Unmount
| Tick
| ChangeUsername (v : string)
| ChangePassword (v : string)
| SubmitLogin
| ClickLogout
| ClickFilter (v : string)
| ClickItem (id : string)
| ChangeReplyText (v : string)
| ChangeCloseTicket (v : bool)
| ClickReply
| Settle (k : nat) (r : Settled).

(** The filter buttons of the side bar. *)
Definition filters : list string :=
  [""; "pending"; "in_progress"; "resolved"].

Definition settle_call (c : Call) (r : Settled) (p : Panel)
  : option (Panel * list Api.Request) :=
  match c, r with
  | CallGetEscalations, SettledGetEscalations r =>
      Some (idle (loadEscalations_end (Api.getEscalations_response r) p))
  | CallLogin, SettledLogin r =>
      Some (idle (handleLogin_end (Api.operatorLogin_response r) p))
  | CallReply cb, SettledReply r =>
      Some (handleReply_end cb (Api.operatorReply_response r) p)
  | _, _ => None
  end.

(** What the handler of an event does, before the render that follows. *)
Definition handle (p : Panel) (e : Event) : Panel * list Api.Request :=
  let s := state p in
  match e with
  | Mount | Unmount => idle p
  | Tick =>
      match interval p with
      | Some iv => loadEscalations_begin (handler iv) p
      | None => idle p
      end
  | Settle k r =>
      match calls p !! k with
      | Some c =>
          from_option id (idle p)
            (settle_call c r (with_calls (delete k) p))
      | None => idle p
      end
  | _ =>
      if mounted p then
        match e, render s with
        | ChangeUsername v, LoginForm _ _ _ => idle (with_state (setUsername v) p)
        | ChangePassword v, LoginForm _ _ _ => idle (with_state (setPassword v) p)
        | SubmitLogin, LoginForm _ _ _ => handleLogin_begin p
        | ClickLogout, Tickets _ _ _ _ _ => idle (handleLogout p)
        | ClickFilter v, Tickets _ _ _ _ _ =>
            if bool_decide (v ∈ filters)
            then idle (with_state (setFilter v) p)
            else idle p
        | ClickItem id, Tickets _ _ items _ _ =>
            if bool_decide (id ∈ items)
            then idle (with_state (setSelectedId (Some id)) p)
            else idle p
        | ChangeReplyText v, Tickets _ _ _ _ (Some _) =>
            idle (with_state (setReplyText v) p)
        | ChangeCloseTicket v, Tickets _ _ _ _ (Some _) =>
            idle (with_state (setCloseTicket v) p)
        | ClickReply, Tickets _ _ _ _ (Some area) =>
            if ra_send_disabled area then idle p else handleReply_begin p
        | _, _ => idle p
        end
      else idle p
  end.

(** One event of the panel. *)
Definition step (p : Panel) (e : Event) : Panel * list Api.Request :=
  match e with
  | Mount =>
      if mounted p then idle p
      else
        useEffect
          {| mounted := true; state := initial (storage p);
             storage := storage p; interval := None; calls := calls p;
             alerts := alerts p |}
  | Unmount =>
      if mounted p
      then idle {| mounted := false; state := state p;
                   storage := storage p; interval := None;
                   calls := calls p; alerts := alerts p |}
      else idle p
  | _ =>
      let '(p1, out1) := handle p e in
      let '(p2, out2) := rerender (state p) p1 in
      (p2, out1 ++ out2)
  end.

Definition run : Panel → list Event → Panel * list Api.Request :=
  Trace.run step.

(** The page before the panel is first rendered. *)
Definition unmounted (storage : gmap string string) : Panel :=
  {| mounted := false; state := initial storage; storage := storage;
     interval := None; calls := []; alerts := [] |}.

End OperatorPanel.

(** ** The Java integration sample ([FarmbazisAIIntegration.java]) *)

Module Java.

Definition API_URL : string := "http://41.216.182.31:8000/api/chat".

(** [String.trim()]: strips the characters up to U+0020 at both ends. *)
Definition is_space (a : ascii) : bool := nat_of_ascii a <=? 32.

Fixpoint trimStart (l : list ascii) : list ascii :=
  match l with
  | a :: l' => if is_space a then trimStart l' else l
  | [] => []
  end.

Definition trim (s : string) : string :=
  string_of_list_ascii
    (rev (trimStart (rev (trimStart (list_ascii_of_string s))))).

(** [String.valueOf(int)] *)
Definition String_valueOf (n : Z) : string :=
  match n with
  | Z0 => "0"
  | Zpos p => Js.String_of_nat (Pos.to_nat p)
  | Zneg p => "-" +:+ Js.String_of_nat (Pos.to_nat p)
  end.

Record Topic := {
  number : Z;
  title : string;
  articleId : string;
  snippet : string
}.

Record BotResponse := {
  type : string;
  text : string;
  confidence : Q;
  needsEscalation : bool;
  youtubeLinks : option (list string);
  topics : option (list Topic)
}.

Definition isClarification (r : BotResponse) : bool :=
  bool_decide (type r = "clarification").

(** *** [FarmbazisAIClient] *)
Record FarmbazisAIClient := { sessionId : option string }.

Definition type_name (t : Api.ResponseType) : string :=
  match t with
  | Api.Answer => "answer"
  | Api.Clarification => "clarification"
  end.

(** The loop index [i] stays below the size of the array, an [int], so
    that [i + 1] does not wrap around. *)
Definition parseTopic (i : nat) (t : Api.SuggestedTopic) : Topic :=
  {| number := Z.of_nat i + 1;
     title := Api.title t;
     articleId := Api.article_id t;
     snippet := Api.snippet t |}.

Definition parseBotResponse (data : Api.ChatResponse) : BotResponse :=
  {| type := type_name (Api.response_type data);
     text := Api.answer data;
     confidence := Api.confidence data;
     needsEscalation := Api.needs_escalation data;
     youtubeLinks := Some (Api.youtube_links data);
     topics :=
       match Api.response_type data with
       | Api.Clarification => imap parseTopic <$> Api.suggested_topics data
       | Api.Answer => None
       end |}.

(** [ask], up to the response: the request body has [message] and, when
    a session is known, [session_id]. *)
Definition ask_request (client : FarmbazisAIClient) (question : string)
  : Api.Request :=
  {| Api.method := "POST";
     Api.path := API_URL;
     Api.query := [];
     Api.headers := [("Content-Type", "application/json")];
     Api.body := Some ([("message", Api.JString question)]
                         ++ Api.property "session_id" (sessionId client)) |}.

(** [ask], from the response on: [None] is a thrown exception. *)
Definition ask_response (r : Api.FetchResult Api.ChatResponse)
  : option (FarmbazisAIClient * BotResponse) :=
  match r with
  | Api.Http 200 (Some data) =>
      Some ({| sessionId := Some (Api.session_id data) |},
            parseBotResponse data)
  | _ => None
  end.

Definition resetSession (client : FarmbazisAIClient) : FarmbazisAIClient :=
  {| sessionId := None |}.

(** *** [SupportDialog] *)
Inductive AnswerArea :=
| Blank
| Processing
| Failed
| Shown (answer : string)
| Answered (r : BotResponse).

Record SupportDialog := {
  aiClient : FarmbazisAIClient;
  questionArea : string;
  answerArea : AnswerArea;
  topicsVisible : bool;
  radios : list Topic;
  askEnabled : bool;
  warnings : nat
}.

Definition open_dialog : SupportDialog :=
  {| aiClient := {| sessionId := None |};
     questionArea := "";
     answerArea := Blank;
     topicsVisible := false;
     radios := [];
     askEnabled := true;
     warnings := 0 |}.

Definition setText (v : string) (d : SupportDialog) : SupportDialog :=
  {| aiClient := aiClient d; questionArea := v; answerArea := answerArea d;
     topicsVisible := topicsVisible d; radios := radios d;
     askEnabled := askEnabled d; warnings := warnings d |}.

(** [handleAsk], up to the start of the background worker. *)
Definition handleAsk (d : SupportDialog)
  : SupportDialog * list Api.Request :=
  let question := trim (questionArea d) in
  if negb (Js.truthy question) then
    ({| aiClient := aiClient d; questionArea := questionArea d;
        answerArea := answerArea d; topicsVisible := topicsVisible d;
        radios := radios d; askEnabled := askEnabled d;
        warnings := warnings d + 1 |}, [])
  else
    ({| aiClient := aiClient d; questionArea := questionArea d;
        answerArea := Processing; topicsVisible := topicsVisible d;
        radios := radios d; askEnabled := false;
        warnings := warnings d |},
     [ask_request (aiClient d) question]).

(** [handleResponse]; iterating over [response.topics] when it is [null]
    throws, which [done] reports like a failed request. *)
Definition handleResponse (r : BotResponse) (d : SupportDialog)
  : SupportDialog :=
  if isClarification r then
    match topics r with
    | Some ts =>
        {| aiClient := aiClient d; questionArea := questionArea d;
           answerArea := Shown (text r); topicsVisible := true;
           radios := ts; askEnabled := askEnabled d;
           warnings := warnings d |}
    | None =>
        {| aiClient := aiClient d; questionArea := questionArea d;
           answerArea := Failed; topicsVisible := true;
           radios := []; askEnabled := askEnabled d;
           warnings := warnings d |}
    end
  else
    {| aiClient := aiClient d; questionArea := questionArea d;
       answerArea := Answered r; topicsVisible := false;
       radios := radios d; askEnabled := askEnabled d;
       warnings := warnings d |}.

(** The worker's [done]. *)
Definition done (r : Api.FetchResult Api.ChatResponse) (d : SupportDialog)
  : SupportDialog :=
  let d' :=
    match ask_response r with
    | Some (client, response) =>
        handleResponse response
          {| aiClient := client; questionArea := questionArea d;
             answerArea := answerArea d; topicsVisible := topicsVisible d;
             radios := radios d; askEnabled := askEnabled d;
             warnings := warnings d |}
    | None =>
        {| aiClient := aiClient d; questionArea := questionArea d;
           answerArea := Failed; topicsVisible := topicsVisible d;
           radios := radios d; askEnabled := askEnabled d;
           warnings := warnings d |}
    end in
  {| aiClient := aiClient d'; questionArea := questionArea d';
     answerArea := answerArea d'; topicsVisible := topicsVisible d';
     radios := radios d'; askEnabled := true; warnings := warnings d' |}.

(** The action listener of the radio button of a topic. *)
Definition select_topic (topic : Topic) (d : SupportDialog)
  : SupportDialog * list Api.Request :=
  handleAsk (setText (String_valueOf (number topic)) d).

Inductive Event :=
| TypeQuestion (v : string)
| ClickAsk
| ClickReset
| ClickRadio (j : nat)
| Done (r : Api.FetchResult Api.ChatResponse).

Definition step (d : SupportDialog) (e : Event)
  : SupportDialog * list Api.Request :=
  match e with
  | TypeQuestion v => (setText v d, [])
  | ClickAsk => if askEnabled d then handleAsk d else (d, [])
  | ClickReset =>
      ({| aiClient := resetSession (aiClient d); questionArea := "";
          answerArea := Blank; topicsVisible := false; radios := [];
          askEnabled := askEnabled d; warnings := warnings d |}, [])
  | ClickRadio j =>
      if topicsVisible d then
        match radios d !! j with
        | Some topic => select_topic topic d
        | None => (d, [])
        end
      else (d, [])
  | Done r => (done r d, [])
  end.

Definition run
  : SupportDialog → list Event → SupportDialog * list Api.Request :=
  Trace.run step.

End Java.

(** ** The answering engine

    The backend that answers [sendTurn] and keeps the transcripts is not
    among the sources; it is described by sections 3 and 4.1 of the
    specification. *)

Module Engine.

(** Modelled from the spec: a turn of a transcript, [{role, content,
    timestamp}] (section 3; the backend is missing).  The time stamp is the
    value of the clock of the engine when the turn is appended. *)
Record Turn := {
  role : Api.Role;
  content : string;
  timestamp : nat
}.

(** Modelled from the spec: the sessions kept by the missing backend, each
    a token with its append-only transcript (section 3). *)
Record State := {
  sessions : gmap string (list Turn);
  clock : nat
}.

Definition empty : State := {| sessions := ∅; clock := 0 |}.

Record Call := {
  call_session : option string;
  call_text : string
}.

Record Reply := {
  reply_session : string;
  reply_answer : string
}.

Section SendTurn.

(** The retrieval engine is out of scope: given the transcript so far and
    the text, it produces an answer or fails. *)
Context (generate : list Turn → string → option string).

(** Modelled from the spec: [sendTurn] of the missing backend (section
    4.1).  If the session id is absent the engine allocates one and returns
    it; a successful call appends one [user] turn and one [assistant] turn
    to the transcript of its session; on failure nothing is appended.  A
    token that is supplied but unknown starts from an empty transcript. *)
Definition sendTurn (σ : State) (sessionId : option string)
    (text : string) : State * option Reply :=
  let sid := match sessionId with
             | Some t => t
             | None => fresh_string "session" (sessions σ)
             end in
  let transcript := default [] (sessions σ !! sid) in
  match generate transcript text with
  | Some reply =>
      let turns :=
        [ {| role := Api.user; content := text; timestamp := clock σ |};
          {| role := Api.assistant; content := reply;
             timestamp := clock σ + 1 |} ] in
      ({| sessions := <[sid := transcript ++ turns]> (sessions σ);
          clock := clock σ + 2 |},
       Some {| reply_session := sid; reply_answer := reply |})
  | None => (σ, None)
  end.

Definition step (σ : State) (c : Call) : State * list (option Reply) :=
  let '(σ', r) := sendTurn σ (call_session c) (call_text c) in
  (σ', [r]).

Definition run : State → list Call → State * list (option Reply) :=
  Trace.run step.

End SendTurn.

End Engine.

(** ** Vocabulary of the statements *)

Definition is_digit (a : ascii) : bool :=
  let n := nat_of_ascii a in (48 <=? n) && (n <=? 57).

Definition starts_with_digit (l : list ascii) : Prop :=
  match l with
  | a :: _ => is_digit a = true
  | [] => False
  end.

Definition no_digit_head (w : list ascii) : bool :=
  match w with
  | a :: _ => negb (is_digit a)
  | [] => false
  end.

(** The [session_id] property of a chat request sent by a component whose
    [sessionId] state is [sid]. *)
Definition session_field (sid : option string) : Api.json :=
  match sid with
  | Some (String a t) => Api.JString (String a t)
  | _ => Api.JNull
  end.

(** The [POST /api/chat] request with the given text, written out. *)
Definition chat_request (text : string) (sid : option string) : Api.Request :=
  {| Api.method := "POST";
     Api.path := "/api/chat";
     Api.query := [];
     Api.headers := [("Content-Type", "application/json")];
     Api.body := Some [("message", Api.JString text);
                       ("session_id", session_field sid)] |}.

(** A text suggests escalation when it refers the user to the operator. *)
Definition mentions_operator (text : string) : bool :=
  Js.includes (list_ascii_of_string "оператор") (list_ascii_of_string text).

(** The response [r] turned into an answer that does not ask for
    escalation; everything else is kept. *)
Definition as_plain_answer (r : Api.ChatResponse) : Api.ChatResponse :=
  {| Api.answer := Api.answer r;
     Api.session_id := Api.session_id r;
     Api.confidence := Api.confidence r;
     Api.needs_escalation := false;
     Api.source_articles := Api.source_articles r;
     Api.youtube_links := Api.youtube_links r;
     Api.has_images := Api.has_images r;
     Api.response_type := Api.Answer;
     Api.suggested_topics := Api.suggested_topics r |}.

(** A clarification without topics: the list is empty or missing. *)
Definition no_topics (r : Api.ChatResponse) : Prop :=
  Api.suggested_topics r = Some [] ∨ Api.suggested_topics r = None.

(** A chat request that did not succeed: the network failed, the status
    was not a 2xx one, or the body could not be read. *)
Definition failed {A} (r : Api.FetchResult A) : Prop :=
  match r with
  | Api.NetworkError => True
  | Api.Http st body => Api.ok st = false ∨ body = None
  end.

(** A request that creates an escalation ticket. *)
Definition creates_ticket (rq : Api.Request) : bool :=
  bool_decide (Api.path rq = "/api/escalation").

(** The escalation button of message [i] is on the screen. *)
Definition ChatWidget_offers_escalation (w : ChatWidget.Widget) (i : nat)
  : bool :=
  match ChatWidget.render (ChatWidget.pathname w) (ChatWidget.state w) with
  | Some v =>
      match ChatWidget.v_window v with
      | Some win => ChatWidget.escalation_button_at win i
      | None => false
      end
  | None => false
  end.

(** The value of a property of a request body. *)
Fixpoint property_of (key : string) (props : list (string * Api.json))
  : option Api.json :=
  match props with
  | [] => None
  | (k, v) :: rest =>
      if bool_decide (k = key) then Some v else property_of key rest
  end.

(** The request is made on behalf of the session [tok]: its body has the
    property [session_id], which is [tok], or [null] when there is none. *)
Definition carries (tok : option string) (rq : Api.Request) : Prop :=
  Api.body rq ≫= property_of "session_id" = Some (session_field tok).

(** What a chat component knows of its session: the session ids captured
    by the chat calls that wait for their response, whether [loading] is
    set, and the session id it holds. *)
Record Sending := {
  in_flight : list (option string);
  busy : bool;
  held : option string
}.

(** At most one chat call is in flight, exactly when [loading] is set, and
    it has captured the session id that the component still holds. *)
Definition disciplined (v : Sending) : Prop :=
  match in_flight v with
  | [] => busy v = false
  | [c] => busy v = true ∧ c = held v
  | _ => False
  end.

(** The three ways in which an event moves a component from [v] to [v']:
    no chat call begins or ends; a chat call begins, which needs [loading]
    to be clear; a chat call ends, and then the session id held changes
    only if the call had captured none and its response brought [got]. *)
Definition advance (got : option string) (v v' : Sending) : Prop :=
  v' = v
  ∨ (busy v = false
     ∧ v' = {| in_flight := in_flight v ++ [held v]; busy := true;
               held := held v |})
  ∨ (∃ l1 c l2,
       in_flight v = l1 ++ c :: l2
       ∧ in_flight v' = l1 ++ l2
       ∧ busy v' = false
       ∧ (held v' = held v
          ∨ (Js.truthy_opt c = false ∧ is_Some got ∧ held v' = got))).

(** The session id that a successful chat response carries. *)
Definition received_token (r : Api.FetchResult Api.ChatResponse)
  : option string :=
  match Api.sendMessage_response r with
  | Api.Resolved response => Some (Api.session_id response)
  | Api.Rejected _ => None
  end.

Definition ChatPage_sending (p : ChatPage.Page) : Sending :=
  {| in_flight :=
       omap (λ c, match c with
                  | ChatPage.CallSend cl | ChatPage.CallTopic cl =>
                      Some (ChatPage.captured_sessionId cl)
                  | _ => None
                  end) (ChatPage.calls p);
     busy := ChatPage.loading (ChatPage.state p);
     held := ChatPage.sessionId (ChatPage.state p) |}.

Definition ChatPage_received (e : ChatPage.Event) : option string :=
  match e with
  | ChatPage.Settle _ (ChatPage.SettledChat r) => received_token r
  | _ => None
  end.

Definition ChatWidget_sending (w : ChatWidget.Widget) : Sending :=
  {| in_flight :=
       omap (λ c, match c with
                  | ChatWidget.CallSend cl =>
                      Some (ChatWidget.captured_sessionId cl)
                  | _ => None
                  end) (ChatWidget.calls w);
     busy := ChatWidget.loading (ChatWidget.state w);
     held := ChatWidget.sessionId (ChatWidget.state w) |}.

Definition ChatWidget_received (e : ChatWidget.Event) : option string :=
  match e with
  | ChatWidget.Settle _ (ChatWidget.SettledChat r) => received_token r
  | _ => None
  end.

Definition ChatWidgetClarify_sending (w : ChatWidgetClarify.Widget)
  : Sending :=
  {| in_flight :=
       omap (λ c, match c with
                  | ChatWidgetClarify.CallSend cl
                  | ChatWidgetClarify.CallTopic cl =>
                      Some (ChatWidgetClarify.captured_sessionId cl)
                  | _ => None
                  end) (ChatWidgetClarify.calls w);
     busy := ChatWidgetClarify.loading (ChatWidgetClarify.state w);
     held := ChatWidgetClarify.sessionId (ChatWidgetClarify.state w) |}.

Definition ChatWidgetClarify_received (e : ChatWidgetClarify.Event)
  : option string :=
  match e with
  | ChatWidgetClarify.Settle _ (ChatWidgetClarify.SettledChat r) =>
      received_token r
  | _ => None
  end.

(** Every turn kept by the engine is older than its clock. *)
Definition Engine_timely (σ : Engine.State) : Prop :=
  ∀ sid transcript turn,
    Engine.sessions σ !! sid = Some transcript →
    turn ∈ transcript → Engine.timestamp turn < Engine.clock σ.

(** The timer of the operator panel: while the panel is mounted, an
    interval of 15000 ms runs the [loadEscalations] of the current render;
    while it is not, there is none. *)
Definition OperatorPanel_polling (p : OperatorPanel.Panel) : Prop :=
  OperatorPanel.interval p =
    if OperatorPanel.mounted p
    then Some {| OperatorPanel.delay := 15000%N;
                 OperatorPanel.handler :=
                   OperatorPanel.loadEscalations_of (OperatorPanel.state p) |}
    else None.

Definition is_login_form (v : OperatorPanel.View) : bool :=
  match v with
  | OperatorPanel.LoginForm _ _ _ => true
  | OperatorPanel.Tickets _ _ _ _ _ => false
  end.

(** The operator is logged out: the panel holds no token, [localStorage]
    has none, and no login or reply is waiting for its response. *)
Definition OperatorPanel_logged_out (p : OperatorPanel.Panel) : Prop :=
  (OperatorPanel.mounted p = true →
   Js.truthy_opt (OperatorPanel.token (OperatorPanel.state p)) = false)
  ∧ OperatorPanel.storage p !! "op_token" = None
  ∧ OperatorPanel_polling p
  ∧ Forall (λ c, c = OperatorPanel.CallGetEscalations)
      (OperatorPanel.calls p).

(** An authentication failure: the server answers 401 or 403. *)
Definition unauthorized {A} (r : Api.FetchResult A) : Prop :=
  match r with
  | Api.Http st _ => st = 401 ∨ st = 403
  | Api.NetworkError => False
  end.

(** ** Sample data *)

Module Sample.

Definition topics : list Api.SuggestedTopic :=
  [ {| Api.title := "Печать чеков";
       Api.article_id := "a-17";
       Api.snippet := "Настройка печати чеков" |};
    {| Api.title := "Печать ценников";
       Api.article_id := "a-42";
       Api.snippet := "Шаблоны ценников" |} ].

(** A clarification that also carries [needs_escalation = true]. *)
Definition clarification : Api.ChatResponse :=
  {| Api.answer := "Уточните, пожалуйста, тему";
     Api.session_id := "s1";
     Api.confidence := Qmake 1 5;
     Api.needs_escalation := true;
     Api.source_articles := [];
     Api.youtube_links := [];
     Api.has_images := false;
     Api.response_type := Api.Clarification;
     Api.suggested_topics := Some topics |}.

(** The same without topics. *)
Definition bare_clarification : Api.ChatResponse :=
  {| Api.answer := "Уточните, пожалуйста, тему";
     Api.session_id := "s1";
     Api.confidence := Qmake 1 5;
     Api.needs_escalation := true;
     Api.source_articles := [];
     Api.youtube_links := [];
     Api.has_images := false;
     Api.response_type := Api.Clarification;
     Api.suggested_topics := Some [] |}.

(** An answer of low confidence. *)
Definition weak_answer : Api.ChatResponse :=
  {| Api.answer := "Попробуйте переустановить драйвер";
     Api.session_id := "s1";
     Api.confidence := Qmake 1 10;
     Api.needs_escalation := true;
     Api.source_articles := ["a-3"];
     Api.youtube_links := [];
     Api.has_images := false;
     Api.response_type := Api.Answer;
     Api.suggested_topics := None |}.

Definition ticket : Api.EscalationResponse :=
  {| Api.escalation_id := "e1";
     Api.status := "pending";
     Api.message := "Заявка создана";
     Api.position_in_queue := 1 |}.

Definition ok {A} (a : A) : Api.FetchResult A := Api.Http 200 (Some a).

(** The chat page after a question that was answered by [r]. *)
Definition page_after (r : Api.ChatResponse) : ChatPage.Page :=
  (ChatPage.run ChatPage.start
     [ChatPage.ChangeInput "печать";
      ChatPage.ClickSend;
      ChatPage.Settle 0 (ChatPage.SettledChat (ok r))]).1.

(** The two widgets, opened on the start page, after the same exchange. *)
Definition widget_after (r : Api.ChatResponse) : ChatWidget.Widget :=
  (ChatWidget.run (ChatWidget.start "/")
     [ChatWidget.ClickToggle;
      ChatWidget.ChangeInput "печать";
      ChatWidget.ClickSend;
      ChatWidget.Settle 0 (ChatWidget.SettledChat (ok r))]).1.

Definition topic_widget_after (r : Api.ChatResponse)
  : ChatWidgetClarify.Widget :=
  (ChatWidgetClarify.run (ChatWidgetClarify.start "/")
     [ChatWidgetClarify.ClickToggle;
      ChatWidgetClarify.ChangeInput "печать";
      ChatWidgetClarify.ClickSend;
      ChatWidgetClarify.Settle 0 (ChatWidgetClarify.SettledChat (ok r))]).1.

(** The Java dialog after the same exchange. *)
Definition dialog_after (r : Api.ChatResponse) : Java.SupportDialog :=
  (Java.run Java.open_dialog
     [Java.TypeQuestion "печать"; Java.ClickAsk; Java.Done (ok r)]).1.

(** The operator panel of an operator who logged in earlier, just
    mounted: its first poll is in flight. *)
Definition panel : OperatorPanel.Panel :=
  (OperatorPanel.run (OperatorPanel.unmounted {[ "op_token" := "t0" ]})
     [OperatorPanel.Mount]).1.

(** An engine that answers every text. *)
Definition echo (transcript : list Engine.Turn) (text : string)
  : option string := Some ("re: " +:+ text).

End Sample.

(** * Properties *)

(** ** Facts about the JavaScript primitives *)

Section JsFacts.

Lemma is_digit_eqb a b :
  is_digit a = true → is_digit b = false → Ascii.eqb b a = false.
Proof.
  intros Ha Hb. destruct (Ascii.eqb_spec b a) as [->|]; [congruence|done].
Qed.

Lemma strip_one_digit table l :
  forallb no_digit_head table = true →
  starts_with_digit l →
  Js.strip_one table l = None.
Proof.
  intros Htable Hl. destruct l as [|a l]; [done|]. simpl in Hl.
  induction table as [|w table IH]; [done|].
  simpl in Htable. apply andb_prop in Htable as [Hw Htable].
  destruct w as [|b w]; [done|]. simpl in Hw.
  apply negb_true_iff in Hw. simpl.
  rewrite (is_digit_eqb a b) by done. by apply IH.
Qed.

Lemma strip_all_digit table fuel l :
  forallb no_digit_head table = true →
  starts_with_digit l →
  Js.strip_all table fuel l = l.
Proof.
  intros Htable Hl. destruct fuel as [|fuel]; [done|].
  simpl. by rewrite strip_one_digit.
Qed.

Lemma white_space_no_digit : forallb no_digit_head Js.white_space = true.
Proof. reflexivity. Qed.

Lemma white_space_rev_no_digit :
  forallb no_digit_head (map (@rev ascii) Js.white_space) = true.
Proof. reflexivity. Qed.

(** A text that begins and ends with a digit is left alone by [trim]. *)
Lemma trim_digits (s : string) :
  starts_with_digit (list_ascii_of_string s) →
  starts_with_digit (rev (list_ascii_of_string s)) →
  Js.trim s = s.
Proof.
  intros Hhd Hlast. unfold Js.trim, Js.trimStart, Js.trimEnd.
  rewrite (strip_all_digit _ _ _ white_space_no_digit Hhd).
  rewrite (strip_all_digit _ _ _ white_space_rev_no_digit Hlast).
  rewrite rev_involutive. apply string_of_list_ascii_of_string.
Qed.

Lemma string_of_uint_digits (d : Decimal.uint) :
  Forall (λ a, is_digit a = true)
    (list_ascii_of_string (NilEmpty.string_of_uint d)).
Proof. induction d; simpl; by constructor. Qed.

Lemma to_uint_nonnil (n : nat) : Nat.to_uint n ≠ Decimal.Nil.
Proof.
  intros H. pose proof (Unsigned.of_to n) as Hn. rewrite H in Hn.
  simpl in Hn. subst n. discriminate H.
Qed.

Lemma String_of_nat_digits (n : nat) :
  Forall (λ a, is_digit a = true)
    (list_ascii_of_string (Js.String_of_nat n)).
Proof. apply string_of_uint_digits. Qed.

Lemma String_of_nat_nonempty (n : nat) : Js.String_of_nat n ≠ "".
Proof.
  unfold Js.String_of_nat. pose proof (to_uint_nonnil n) as H.
  by destruct (Nat.to_uint n).
Qed.

Lemma String_of_nat_truthy (n : nat) : Js.truthy (Js.String_of_nat n) = true.
Proof.
  pose proof (String_of_nat_nonempty n).
  by destruct (Js.String_of_nat n).
Qed.

(** The digits of a number carry no white space: [String(n).trim()] is
    [String(n)]. *)
Lemma trim_String_of_nat (n : nat) :
  Js.trim (Js.String_of_nat n) = Js.String_of_nat n.
Proof.
  pose proof (String_of_nat_digits n) as Hall.
  pose proof (String_of_nat_nonempty n) as Hne.
  apply trim_digits.
  - destruct (Js.String_of_nat n) as [|a s]; [done|].
    simpl in *. by inversion Hall.
  - assert (list_ascii_of_string (Js.String_of_nat n) ≠ []) as Hl.
    { by destruct (Js.String_of_nat n). }
    apply Forall_rev in Hall. revert Hall.
    destruct (rev (list_ascii_of_string (Js.String_of_nat n))) eqn:Hr.
    + apply (f_equal (@rev ascii)) in Hr. rewrite rev_involutive in Hr.
      done.
    + by inversion 1.
Qed.

(** The value read back from the digits is the number, so that
    [String_of_nat] is the decimal numeral of its argument. *)
Lemma String_of_nat_decimal (n : nat) :
  Nat.of_uint <$> NilEmpty.uint_of_string (Js.String_of_nat n) = Some n.
Proof.
  unfold Js.String_of_nat. rewrite NilEmpty.usu. simpl.
  by rewrite Unsigned.of_to.
Qed.

(** The fuel of [strip_all], the length of the text, is enough: every
    white space sequence that is stripped takes at least one byte, so that
    the result starts with none. *)
Lemma strip_prefix_length w l l' :
  Js.strip_prefix w l = Some l' → length l = length w + length l'.
Proof.
  revert l. induction w as [|a w IH]; intros l; simpl.
  - by intros [= ->].
  - destruct l as [|b l]; [done|]. destruct (Ascii.eqb a b); [|done].
    intros H. simpl. by rewrite (IH l H).
Qed.

Lemma strip_one_shorter table l l' :
  Forall (λ w, w ≠ []) table →
  Js.strip_one table l = Some l' → length l' < length l.
Proof.
  induction 1 as [|w table Hw _ IH]; simpl; [done|].
  destruct (Js.strip_prefix w l) as [l1|] eqn:H1; [|done].
  intros [= <-]. apply strip_prefix_length in H1.
  destruct w; [done|]. simpl in H1. lia.
Qed.

Lemma strip_all_done table fuel l :
  Forall (λ w, w ≠ []) table →
  length l ≤ fuel →
  Js.strip_one table (Js.strip_all table fuel l) = None.
Proof.
  intros Htable. revert l. induction fuel as [|fuel IH]; intros l Hl; simpl.
  - destruct l; [|simpl in Hl; lia].
    clear Hl. induction Htable as [|w table Hw _ IH']; simpl; [done|].
    by destruct w.
  - destruct (Js.strip_one table l) as [l'|] eqn:H1; [|done].
    apply IH. apply strip_one_shorter in H1; [lia|done].
Qed.

Lemma trimStart_done l :
  Js.strip_one Js.white_space (Js.trimStart l) = None.
Proof.
  apply strip_all_done; [|done].
  unfold Js.white_space. by repeat constructor.
Qed.

Lemma trimEnd_done l :
  Js.strip_one (map (@rev ascii) Js.white_space) (rev (Js.trimEnd l)) = None.
Proof.
  unfold Js.trimEnd. rewrite rev_involutive.
  apply strip_all_done; [|by rewrite length_rev].
  unfold Js.white_space. by repeat constructor.
Qed.

End JsFacts.

(** ** Topic selection *)

Section TopicSelection.

Lemma sendMessage_request_chat text sid :
  Api.sendMessage_request text (Js.or_undefined sid) = chat_request text sid.
Proof.
  unfold Api.sendMessage_request, chat_request, Api.or_null. f_equal.
  by destruct sid as [[|a t]|].
Qed.

Lemma ChatPage_topic_button s i j b :
  ChatPage.topic_button_at (ChatPage.render s) i j = Some b →
  ChatPage.tb_topicIndex b = j ∧ ChatPage.tb_disabled b = ChatPage.loading s.
Proof.
  unfold ChatPage.topic_button_at, ChatPage.render.
  cbn [ChatPage.v_messages]. rewrite list_lookup_imap.
  destruct (ChatPage.messages s !! i) as [msg|]; [|done].
  cbn [fmap option_fmap option_map ChatPage.render_message
         ChatPage.mv_clarification].
  destruct (ChatPage.responseType msg) as [[]|]; try done.
  destruct (ChatPage.suggestedTopics msg) as [[|t ts]|]; try done.
  rewrite list_lookup_imap.
  destruct ((t :: ts) !! j); [|done]. by intros [= <-].
Qed.

(** Clicking a topic button of the chat page, and typing its number and
    pressing send, put the same request on the wire. *)
Lemma ChatPage_topic_click p i j b :
  ChatPage.topic_button_at (ChatPage.render (ChatPage.state p)) i j = Some b →
  ChatPage.tb_disabled b = false →
  let rq := chat_request (Js.String_of_nat (j + 1))
              (ChatPage.sessionId (ChatPage.state p)) in
  (ChatPage.step p (ChatPage.ClickTopic i j)).2 = [rq]
  ∧ (ChatPage.run p [ChatPage.ChangeInput (Js.String_of_nat (j + 1));
                     ChatPage.ClickSend]).2 = [rq].
Proof.
  intros Hb Hdis. pose proof (ChatPage_topic_button _ _ _ _ Hb) as [Hj Hl].
  rewrite Hdis in Hl. split.
  - unfold ChatPage.step. rewrite Hb, Hdis, Hj.
    unfold ChatPage.handleTopicSelect_begin. rewrite <- Hl.
    cbn [snd ChatPage.issue]. by rewrite sendMessage_request_chat.
  - unfold ChatPage.run.
    cbn [Trace.run ChatPage.step ChatPage.render
           ChatPage.v_input_disabled ChatPage.update ChatPage.state
           ChatPage.v_send_disabled ChatPage.setInput ChatPage.input
           ChatPage.loading].
    rewrite <- Hl. cbn [ChatPage.state ChatPage.input ChatPage.loading].
    unfold ChatPage.sendMessage_begin.
    cbn [ChatPage.update ChatPage.state ChatPage.setInput ChatPage.input
           ChatPage.loading ChatPage.sessionId].
    rewrite trim_String_of_nat, String_of_nat_truthy, <- Hl.
    cbn [negb orb ChatPage.issue snd app].
    by rewrite sendMessage_request_chat.
Qed.

Lemma ChatWidgetClarify_topic_button pathname s v win i j b :
  ChatWidgetClarify.render pathname s = Some v →
  ChatWidgetClarify.v_window v = Some win →
  ChatWidgetClarify.topic_button_at win i j = Some b →
  ChatWidgetClarify.w_input_disabled win = ChatWidgetClarify.loading s
  ∧ ChatWidgetClarify.w_send_disabled win =
      negb (Js.truthy (Js.trim (ChatWidgetClarify.input s)))
      || ChatWidgetClarify.loading s
  ∧ ChatWidgetClarify.tb_topicIndex b = j
  ∧ ChatWidgetClarify.tb_disabled b = ChatWidgetClarify.loading s.
Proof.
  unfold ChatWidgetClarify.render.
  destruct (String.prefix _ _); [done|]. intros [= <-].
  cbn [ChatWidgetClarify.v_window].
  destruct (ChatWidgetClarify.isOpen s); [|done].
  intros [= <-]. unfold ChatWidgetClarify.topic_button_at.
  cbn [ChatWidgetClarify.w_messages ChatWidgetClarify.w_input_disabled
         ChatWidgetClarify.w_send_disabled].
  rewrite list_lookup_fmap.
  destruct (ChatWidgetClarify.messages s !! i) as [msg|]; [|done].
  cbn [fmap option_fmap option_map ChatWidgetClarify.render_message
         ChatWidgetClarify.mv_clarification].
  destruct (ChatWidgetClarify.responseType msg) as [[]|]; try done.
  destruct (ChatWidgetClarify.suggestedTopics msg) as [[|t ts]|]; try done.
  rewrite list_lookup_imap.
  destruct ((t :: ts) !! j); [|done]. by intros [= <-].
Qed.

(** The same for the widget. *)
Lemma ChatWidgetClarify_topic_click w v win i j b :
  ChatWidgetClarify.render (ChatWidgetClarify.pathname w)
    (ChatWidgetClarify.state w) = Some v →
  ChatWidgetClarify.v_window v = Some win →
  ChatWidgetClarify.topic_button_at win i j = Some b →
  ChatWidgetClarify.tb_disabled b = false →
  let rq := chat_request (Js.String_of_nat (j + 1))
              (ChatWidgetClarify.sessionId (ChatWidgetClarify.state w)) in
  (ChatWidgetClarify.step w (ChatWidgetClarify.ClickTopic i j)).2 = [rq]
  ∧ (ChatWidgetClarify.run w
       [ChatWidgetClarify.ChangeInput (Js.String_of_nat (j + 1));
        ChatWidgetClarify.ClickSend]).2 = [rq].
Proof.
  intros Hv Hwin Hb Hdis.
  pose proof (ChatWidgetClarify_topic_button _ _ _ _ _ _ _ Hv Hwin Hb)
    as (Hin & Hsend & Hj & Hl).
  rewrite Hdis in Hl. split.
  - unfold ChatWidgetClarify.step. rewrite Hv, Hwin, Hb, Hdis, Hj.
    unfold ChatWidgetClarify.handleTopicSelect_begin. rewrite <- Hl.
    cbn [snd ChatWidgetClarify.issue]. by rewrite sendMessage_request_chat.
  - unfold ChatWidgetClarify.run. cbn [Trace.run].
    unfold ChatWidgetClarify.step at 1.
    rewrite Hv, Hwin, Hin, <- Hl.
    cbn [ChatWidgetClarify.update].
    unfold ChatWidgetClarify.step.
    cbn [ChatWidgetClarify.state ChatWidgetClarify.pathname].
    revert Hv Hwin. unfold ChatWidgetClarify.render.
    destruct (String.prefix _ _); [done|]. intros [= <-].
    cbn [ChatWidgetClarify.v_window ChatWidgetClarify.setInput
           ChatWidgetClarify.isOpen ChatWidgetClarify.input
           ChatWidgetClarify.loading].
    destruct (ChatWidgetClarify.isOpen _); [|done]. intros _.
    cbn [ChatWidgetClarify.w_send_disabled].
    unfold ChatWidgetClarify.sendMessage_begin.
    cbn [ChatWidgetClarify.input ChatWidgetClarify.loading
           ChatWidgetClarify.sessionId ChatWidgetClarify.setInput].
    rewrite trim_String_of_nat, String_of_nat_truthy, <- Hl.
    cbn [negb orb ChatWidgetClarify.issue snd app].
    by rewrite sendMessage_request_chat.
Qed.

End TopicSelection.

Section JavaTopicSelection.

Lemma Java_trimStart_digit l :
  starts_with_digit l → Java.trimStart l = l.
Proof.
  destruct l as [|a l]; [done|]. simpl. unfold is_digit, Java.is_space.
  intros [H _]%andb_prop. apply Nat.leb_le in H.
  destruct (Nat.leb_spec (nat_of_ascii a) 32); [lia|done].
Qed.

Lemma Java_trim_String_of_nat (n : nat) :
  Java.trim (Js.String_of_nat n) = Js.String_of_nat n.
Proof.
  pose proof (String_of_nat_digits n) as Hall.
  pose proof (String_of_nat_nonempty n) as Hne.
  unfold Java.trim.
  assert (starts_with_digit (list_ascii_of_string (Js.String_of_nat n))).
  { destruct (Js.String_of_nat n) as [|a s]; [done|].
    simpl in *. by inversion Hall. }
  assert (starts_with_digit
            (rev (list_ascii_of_string (Js.String_of_nat n)))).
  { assert (list_ascii_of_string (Js.String_of_nat n) ≠ []) as Hl.
    { by destruct (Js.String_of_nat n). }
    apply Forall_rev in Hall. revert Hall.
    destruct (rev (list_ascii_of_string (Js.String_of_nat n))) eqn:Hr.
    - apply (f_equal (@rev ascii)) in Hr. rewrite rev_involutive in Hr.
      done.
    - by inversion 1. }
  rewrite (Java_trimStart_digit _ H), (Java_trimStart_digit _ H0).
  rewrite rev_involutive. apply string_of_list_ascii_of_string.
Qed.

Lemma Java_String_valueOf_number (j : nat) :
  Java.String_valueOf (Z.of_nat j + 1) = Js.String_of_nat (j + 1).
Proof.
  replace (Z.of_nat j + 1)%Z with (Z.pos (Pos.of_succ_nat j)) by lia.
  simpl. f_equal. lia.
Qed.

(** The radio buttons shown after a clarification are numbered from 1. *)
Lemma Java_radios data ts d0 j topic :
  Api.response_type data = Api.Clarification →
  Api.suggested_topics data = Some ts →
  let d := Java.done (Api.Http 200 (Some data)) d0 in
  Java.radios d !! j = Some topic →
  Java.topicsVisible d = true
  ∧ Java.askEnabled d = true
  ∧ Java.sessionId (Java.aiClient d) = Some (Api.session_id data)
  ∧ Java.number topic = (Z.of_nat j + 1)%Z.
Proof.
  intros Htype Hts. unfold Java.done, Java.ask_response.
  unfold Java.handleResponse, Java.isClarification, Java.parseBotResponse.
  cbn [Java.type Java.topics Java.text]. rewrite Htype, Hts.
  cbn. rewrite bool_decide_eq_true_2 by done. cbn.
  rewrite list_lookup_imap.
  destruct (ts !! j); [|done]. by intros [= <-].
Qed.

(** Choosing a radio button sends its number, as asking it by hand does. *)
Lemma Java_topic_click d j topic :
  Java.topicsVisible d = true →
  Java.radios d !! j = Some topic →
  Java.number topic = (Z.of_nat j + 1)%Z →
  let rq := Java.ask_request (Java.aiClient d) (Js.String_of_nat (j + 1)) in
  (Java.step d (Java.ClickRadio j)).2 = [rq]
  ∧ (Java.askEnabled d = true →
     (Java.run d [Java.TypeQuestion (Js.String_of_nat (j + 1));
                  Java.ClickAsk]).2 = [rq]).
Proof.
  intros Hvis Hj Hnum. split.
  - cbn [Java.step]. rewrite Hvis, Hj. unfold Java.select_topic.
    rewrite Hnum, Java_String_valueOf_number. unfold Java.handleAsk.
    cbn [Java.setText Java.questionArea Java.aiClient].
    by rewrite Java_trim_String_of_nat, String_of_nat_truthy.
  - intros Hask. unfold Java.run.
    cbn [Trace.run Java.step Java.setText Java.askEnabled].
    rewrite Hask. unfold Java.handleAsk.
    cbn [Java.setText Java.questionArea Java.aiClient].
    by rewrite Java_trim_String_of_nat, String_of_nat_truthy.
Qed.

End JavaTopicSelection.

(** C2.  Selecting a suggested topic sends a chat request whose message is
    the decimal numeral of the 1-based index of the topic, together with
    the session id the client holds; the body has the two properties
    [message] and [session_id] and nothing that marks a selection, and it is
    the request that typing the numeral and pressing send produces.  This
    holds for the chat page, for the widget with topic buttons and for the
    Java dialog (whose body leaves [session_id] out while no session is
    known). *)
Theorem topic_selection_sends_its_number :
  (∀ p i j b,
     ChatPage.topic_button_at (ChatPage.render (ChatPage.state p)) i j
       = Some b →
     ChatPage.tb_disabled b = false →
     let rq := chat_request (Js.String_of_nat (j + 1))
                 (ChatPage.sessionId (ChatPage.state p)) in
     (ChatPage.step p (ChatPage.ClickTopic i j)).2 = [rq]
     ∧ (ChatPage.run p [ChatPage.ChangeInput (Js.String_of_nat (j + 1));
                        ChatPage.ClickSend]).2 = [rq])
  ∧ (∀ w v win i j b,
       ChatWidgetClarify.render (ChatWidgetClarify.pathname w)
         (ChatWidgetClarify.state w) = Some v →
       ChatWidgetClarify.v_window v = Some win →
       ChatWidgetClarify.topic_button_at win i j = Some b →
       ChatWidgetClarify.tb_disabled b = false →
       let rq := chat_request (Js.String_of_nat (j + 1))
                   (ChatWidgetClarify.sessionId (ChatWidgetClarify.state w)) in
       (ChatWidgetClarify.step w (ChatWidgetClarify.ClickTopic i j)).2 = [rq]
       ∧ (ChatWidgetClarify.run w
            [ChatWidgetClarify.ChangeInput (Js.String_of_nat (j + 1));
             ChatWidgetClarify.ClickSend]).2 = [rq])
  ∧ (∀ d j topic,
       Java.topicsVisible d = true →
       Java.radios d !! j = Some topic →
       Java.number topic = (Z.of_nat j + 1)%Z →
       let rq := Java.ask_request (Java.aiClient d)
                   (Js.String_of_nat (j + 1)) in
       Api.body rq =
         Some ([("message", Api.JString (Js.String_of_nat (j + 1)))]
                 ++ Api.property "session_id"
                      (Java.sessionId (Java.aiClient d)))
       ∧ (Java.step d (Java.ClickRadio j)).2 = [rq]
       ∧ (Java.askEnabled d = true →
          (Java.run d [Java.TypeQuestion (Js.String_of_nat (j + 1));
                       Java.ClickAsk]).2 = [rq])).
Proof.
  split; [|split].
  - apply ChatPage_topic_click.
  - apply ChatWidgetClarify_topic_click.
  - intros d j topic Hvis Hj Hnum. split; [done|].
    by apply (Java_topic_click d j topic).
Qed.

Lemma topic_selection_sends_its_number_witness :
  (ChatPage.step (Sample.page_after Sample.clarification)
     (ChatPage.ClickTopic 2 0)).2 = [chat_request "1" (Some "s1")]
  ∧ (ChatWidgetClarify.step (Sample.topic_widget_after Sample.clarification)
       (ChatWidgetClarify.ClickTopic 2 1)).2 = [chat_request "2" (Some "s1")]
  ∧ (Java.step (Sample.dialog_after Sample.clarification)
       (Java.ClickRadio 1)).2 =
      [Java.ask_request {| Java.sessionId := Some "s1" |} "2"].
Proof.
  destruct topic_selection_sends_its_number as (Hpage & Hwidget & Hjava).
  split; [|split].
  - refine (proj1 (Hpage (Sample.page_after Sample.clarification) 2 0
                     _ _ _)); reflexivity.
  - refine (proj1 (Hwidget (Sample.topic_widget_after Sample.clarification)
                     _ _ 2 1 _ _ _ _ _)); reflexivity.
  - refine (proj1 (proj2 (Hjava (Sample.dialog_after Sample.clarification) 1
                     _ _ _ _))); reflexivity.
Defined.

(** ** Sessions of events *)

Section TraceFacts.

Context {S E R : Type} (step : S → E → S * list R).

Lemma run_cons s e es :
  Trace.run step s (e :: es) =
    ((Trace.run step (step s e).1 es).1,
     (step s e).2 ++ (Trace.run step (step s e).1 es).2).
Proof.
  simpl. destruct (step s e) as [s1 out1]. simpl.
  by destruct (Trace.run step s1 es).
Qed.

Lemma run_app s es1 es2 :
  Trace.run step s (es1 ++ es2) =
    ((Trace.run step (Trace.run step s es1).1 es2).1,
     (Trace.run step s es1).2
       ++ (Trace.run step (Trace.run step s es1).1 es2).2).
Proof.
  revert s. induction es1 as [|e es1 IH]; intros s.
  - simpl. by destruct (Trace.run step s es2).
  - rewrite <- app_comm_cons, !run_cons, IH. simpl. by rewrite app_assoc.
Qed.

(** A property kept by every event holds along every session; a property
    of the requests of every event holds of all requests of the session. *)
Lemma run_invariant (I : S → Prop) (Q : R → Prop) :
  (∀ s e, I s → I (step s e).1 ∧ Forall Q (step s e).2) →
  ∀ es s, I s →
    I (Trace.run step s es).1 ∧ Forall Q (Trace.run step s es).2.
Proof.
  intros Hstep es. induction es as [|e es IH]; intros s Hs.
  - by split.
  - rewrite run_cons. simpl.
    destruct (Hstep s e Hs) as [H1 Hout1].
    destruct (IH _ H1) as [H2 Hout2].
    split; [done|]. by apply Forall_app.
Qed.

End TraceFacts.

(** ** Escalation prompts and clarifications *)

Section Clarification.

(** On the chat page a clarification never opens the escalation form. *)
Lemma ChatPage_clarification_no_prompt c r s :
  Api.response_type r = Api.Clarification →
  ChatPage.showEscalation (ChatPage.on_response c r s)
    = ChatPage.showEscalation s.
Proof.
  intros Hr. unfold ChatPage.on_response. rewrite Hr.
  rewrite andb_false_r. by destruct (negb _).
Qed.

(** In the widget with topic buttons a clarification brings neither the
    hint nor the escalation button. *)
Lemma ChatWidgetClarify_clarification_no_prompt c r s s' :
  Api.response_type r = Api.Clarification →
  ChatWidgetClarify.messages
    (ChatWidgetClarify.sendMessage_end c (Api.Resolved r) s)
    = ChatWidgetClarify.messages s ++ [ChatWidgetClarify.botMsg r]
  ∧ ChatWidgetClarify.mv_escalation_button
      (ChatWidgetClarify.render_message s' (ChatWidgetClarify.botMsg r))
    = false.
Proof.
  intros Hr. unfold ChatWidgetClarify.sendMessage_end. rewrite Hr. split.
  - rewrite andb_false_r. cbn. by destruct (negb _), (negb _).
  - cbn. rewrite Hr. apply andb_false_r.
Qed.

End Clarification.

(** C1.  The widget of [frontend/src/widget/ChatWidget.tsx] does surface an
    escalation prompt for a clarification: when the response has
    [response_type = "clarification"] and [needs_escalation = true], the
    widget appends its escalation hint after the answer, shows the
    escalation button on the answer, and a click on that button creates a
    ticket. *)
Theorem ChatWidget_clarification_offers_escalation :
  let w := Sample.widget_after Sample.clarification in
  ChatWidget.messages (ChatWidget.state w) =
    [ ChatWidget.plain Api.assistant ChatWidget.greeting;
      ChatWidget.plain Api.user "печать";
      ChatWidget.botMsg Sample.clarification;
      ChatWidget.plain Api.assistant ChatWidget.escalation_hint ]
  ∧ ChatWidget.mv_escalation_button
      (ChatWidget.render_message (ChatWidget.botMsg Sample.clarification))
    = true
  ∧ (ChatWidget.step w (ChatWidget.ClickEscalate 2)).2 =
      [Api.createEscalation_request "s1" None None].
Proof. by vm_compute. Qed.

(** ** Turns appended by a call *)




(** ** Clarifications without topics *)

Section RenderFacts.

(** A message is rendered from the state only through [loading]. *)
Lemma ChatPage_render_message_loading s1 s2 i m :
  ChatPage.loading s1 = ChatPage.loading s2 →
  ChatPage.render_message s1 i m = ChatPage.render_message s2 i m.
Proof.
  intros Hl. unfold ChatPage.render_message. f_equal.
  destruct (ChatPage.responseType m) as [[]|]; try done.
  destruct (ChatPage.suggestedTopics m) as [[|t ts]|]; try done.
  f_equal. apply imap_ext. intros j x _.
  unfold ChatPage.topic_button. by rewrite Hl.
Qed.

Lemma ChatPage_render_push s m1 m2 :
  (∀ s' i, ChatPage.render_message s' i m1
           = ChatPage.render_message s' i m2) →
  ChatPage.render (ChatPage.setLoading false (ChatPage.push m1 s))
  = ChatPage.render (ChatPage.setLoading false (ChatPage.push m2 s)).
Proof.
  intros Hm. unfold ChatPage.render. cbn. f_equal.
  rewrite !imap_app. cbn. rewrite Hm.
  assert (∀ i m,
    ChatPage.render_message
      (ChatPage.setLoading false (ChatPage.push m1 s)) i m
    = ChatPage.render_message
        (ChatPage.setLoading false (ChatPage.push m2 s)) i m) as Hs.
  { intros. by apply ChatPage_render_message_loading. }
  rewrite Hs. apply (f_equal (λ l, l ++ _)).
  apply imap_ext. intros. apply Hs.
Qed.

Lemma ChatWidgetClarify_render_message_loading s1 s2 m :
  ChatWidgetClarify.loading s1 = ChatWidgetClarify.loading s2 →
  ChatWidgetClarify.render_message s1 m
  = ChatWidgetClarify.render_message s2 m.
Proof.
  intros Hl. unfold ChatWidgetClarify.render_message. f_equal.
  destruct (ChatWidgetClarify.responseType m) as [[]|]; try done.
  destruct (ChatWidgetClarify.suggestedTopics m) as [[|t ts]|]; try done.
  f_equal. apply imap_ext. intros j x _.
  unfold ChatWidgetClarify.topic_button. by rewrite Hl.
Qed.

Lemma ChatWidgetClarify_render_push pathname f s m1 m2 :
  (∀ s', ChatWidgetClarify.render_message s' m1
         = ChatWidgetClarify.render_message s' m2) →
  ChatWidgetClarify.render pathname
    (ChatWidgetClarify.setLoading false
       (ChatWidgetClarify.setUnread f (ChatWidgetClarify.push m1 s)))
  = ChatWidgetClarify.render pathname
      (ChatWidgetClarify.setLoading false
         (ChatWidgetClarify.setUnread f (ChatWidgetClarify.push m2 s))).
Proof.
  intros Hm. unfold ChatWidgetClarify.render.
  destruct (String.prefix _ _); [done|]. cbn. do 2 f_equal.
  destruct (ChatWidgetClarify.isOpen s); [|done]. do 2 f_equal.
  rewrite !fmap_app. cbn. rewrite Hm.
  assert (∀ m,
    ChatWidgetClarify.render_message
      (ChatWidgetClarify.setLoading false
         (ChatWidgetClarify.setUnread f (ChatWidgetClarify.push m1 s))) m
    = ChatWidgetClarify.render_message
        (ChatWidgetClarify.setLoading false
           (ChatWidgetClarify.setUnread f (ChatWidgetClarify.push m2 s))) m)
    as Hs.
  { intros. by apply ChatWidgetClarify_render_message_loading. }
  rewrite Hs. apply (f_equal (λ l, l ++ _)).
  apply list_fmap_ext. intros. apply Hs.
Qed.

End RenderFacts.

(** C8.  A clarification whose list of suggested topics is empty (or
    missing) shows no topic buttons and triggers no escalation: on the chat
    page and in the widget with topic buttons the whole view after the
    response is the view that the same response gives as a plain answer
    without an escalation request, the answer itself has no topic buttons
    (and, in the widget, no escalation button), the escalation form of the
    page stays as it was and the widget appends no hint. *)
Theorem empty_clarification_renders_as_answer r :
  Api.response_type r = Api.Clarification →
  no_topics r →
  (∀ c s,
     let s' := ChatPage.sendMessage_end c (Api.Resolved r) s in
     ChatPage.render s' =
       ChatPage.render
         (ChatPage.sendMessage_end c (Api.Resolved (as_plain_answer r)) s)
     ∧ (∀ i, ChatPage.mv_clarification
               (ChatPage.render_message s' i (ChatPage.botMessage r)) = None)
     ∧ ChatPage.showEscalation s' = ChatPage.showEscalation s)
  ∧ (∀ c s,
       ChatPage.render (ChatPage.handleTopicSelect_end c (Api.Resolved r) s) =
         ChatPage.render
           (ChatPage.handleTopicSelect_end c
              (Api.Resolved (as_plain_answer r)) s))
  ∧ (∀ pathname c s,
       let s' := ChatWidgetClarify.sendMessage_end c (Api.Resolved r) s in
       ChatWidgetClarify.render pathname s' =
         ChatWidgetClarify.render pathname
           (ChatWidgetClarify.sendMessage_end c
              (Api.Resolved (as_plain_answer r)) s)
       ∧ ChatWidgetClarify.mv_clarification
           (ChatWidgetClarify.render_message s' (ChatWidgetClarify.botMsg r))
         = None
       ∧ ChatWidgetClarify.mv_escalation_button
           (ChatWidgetClarify.render_message s' (ChatWidgetClarify.botMsg r))
         = false
       ∧ ChatWidgetClarify.messages s' =
           ChatWidgetClarify.messages s ++ [ChatWidgetClarify.botMsg r])
  ∧ (∀ pathname c s,
       ChatWidgetClarify.render pathname
         (ChatWidgetClarify.handleTopicSelect_end c (Api.Resolved r) s) =
         ChatWidgetClarify.render pathname
           (ChatWidgetClarify.handleTopicSelect_end c
              (Api.Resolved (as_plain_answer r)) s)).
Proof.
  intros Htype Htopics.
  assert (∀ s i, ChatPage.render_message s i (ChatPage.botMessage r) =
                 ChatPage.render_message s i
                   (ChatPage.botMessage (as_plain_answer r))) as Hpage.
  { intros s i. unfold ChatPage.render_message. cbn. rewrite Htype.
    by destruct Htopics as [-> | ->]. }
  assert (∀ s, ChatWidgetClarify.render_message s
                 (ChatWidgetClarify.botMsg r) =
               ChatWidgetClarify.render_message s
                 (ChatWidgetClarify.botMsg (as_plain_answer r))) as Hwidget.
  { intros s. unfold ChatWidgetClarify.render_message. cbn. rewrite Htype.
    cbn. rewrite andb_false_r. by destruct Htopics as [-> | ->]. }
  split; [|split; [|split]].
  - intros c s. split; [|split].
    + unfold ChatPage.sendMessage_end, ChatPage.on_response.
      rewrite Htype. cbn [as_plain_answer Api.needs_escalation
        Api.response_type Api.session_id ChatPage.is_clarification negb].
      rewrite andb_false_r. cbn [andb].
      by apply ChatPage_render_push.
    + intros i. unfold ChatPage.render_message. cbn. rewrite Htype.
      by destruct Htopics as [-> | ->].
    + unfold ChatPage.sendMessage_end. cbn.
      by apply ChatPage_clarification_no_prompt.
  - intros c s. unfold ChatPage.handleTopicSelect_end, ChatPage.on_response.
    rewrite Htype. cbn [as_plain_answer Api.needs_escalation
      Api.response_type Api.session_id ChatPage.is_clarification negb].
    rewrite andb_false_r. cbn [andb].
    by apply ChatPage_render_push.
  - intros pathname c s. split; [|split; [|split]].
    + unfold ChatWidgetClarify.sendMessage_end.
      rewrite Htype. cbn [as_plain_answer Api.needs_escalation
        Api.response_type Api.session_id ChatWidgetClarify.is_clarification
        negb].
      rewrite andb_false_r. cbn [andb].
      destruct (negb (ChatWidgetClarify.captured_isOpen c)).
      * apply (ChatWidgetClarify_render_push _ (λ n, n + 1)), Hwidget.
      * apply (ChatWidgetClarify_render_push _ id), Hwidget.
    + unfold ChatWidgetClarify.render_message. cbn. rewrite Htype.
      by destruct Htopics as [-> | ->].
    + unfold ChatWidgetClarify.render_message. cbn. rewrite Htype.
      apply andb_false_r.
    + by apply ChatWidgetClarify_clarification_no_prompt.
  - intros pathname c s. unfold ChatWidgetClarify.handleTopicSelect_end.
    cbn [as_plain_answer Api.session_id].
    apply (ChatWidgetClarify_render_push _ id), Hwidget.
Qed.

Lemma empty_clarification_renders_as_answer_witness :
  let c := {| ChatPage.captured_sessionId := None |} in
  Api.response_type Sample.bare_clarification = Api.Clarification
  ∧ no_topics Sample.bare_clarification
  ∧ ChatPage.render
      (ChatPage.sendMessage_end c
         (Api.Resolved Sample.bare_clarification) ChatPage.initial)
    = ChatPage.render
        (ChatPage.sendMessage_end c
           (Api.Resolved (as_plain_answer Sample.bare_clarification))
           ChatPage.initial).
Proof.
  intros c.
  assert (Api.response_type Sample.bare_clarification = Api.Clarification)
    as Htype by reflexivity.
  assert (no_topics Sample.bare_clarification) as Htopics
    by (left; reflexivity).
  split; [done|]. split; [done|].
  destruct (empty_clarification_renders_as_answer _ Htype Htopics)
    as (Hpage & _).
  exact (proj1 (Hpage c ChatPage.initial)).
Defined.

(** ** Failed calls *)

Section FailedCalls.

Lemma failed_rejected {A} (r : Api.FetchResult A) :
  failed r → ∃ e, Api.checked r = Api.Rejected e.
Proof.
  destruct r as [|st [a|]]; simpl; [by eexists| |].
  - intros [-> | ?]; [by eexists|done].
  - intros _. destruct (Api.ok st); by eexists.
Qed.

End FailedCalls.




(** ** The one-shot escalation flag *)

Section EscalationFlag.

Local Arguments Js.trim : simpl never.
Local Arguments Js.String_of_nat : simpl never.
Local Arguments String.append : simpl never.

Lemma ChatPage_on_response_escalationSent c r s :
  ChatPage.escalationSent (ChatPage.on_response c r s)
    = ChatPage.escalationSent s.
Proof.
  unfold ChatPage.on_response.
  by destruct (negb (Js.truthy_opt _)), (_ && _).
Qed.

(** Once [escalationSent] is set, every event keeps it set and sends no
    request that creates a ticket. *)
Lemma ChatPage_escalationSent_step p e :
  ChatPage.escalationSent (ChatPage.state p) = true →
  ChatPage.escalationSent (ChatPage.state (ChatPage.step p e).1) = true
  ∧ Forall (λ rq, creates_ticket rq = false) (ChatPage.step p e).2.
Proof.
  intros Hsent. destruct p as [s calls]. simpl in Hsent.
  assert (ChatPage.v_escalation (ChatPage.render s) = None) as Hform.
  { unfold ChatPage.render. simpl. rewrite Hsent. by rewrite andb_false_r. }
  destruct e; unfold ChatPage.step; cbn [ChatPage.state ChatPage.calls];
    rewrite ?Hform; unfold ChatPage.idle, ChatPage.update, ChatPage.issue;
    try (by split; [done|constructor]).
  - destruct (ChatPage.v_input_disabled _); by split; [|constructor].
  - destruct (ChatPage.v_send_disabled _); [by split; [|constructor]|].
    unfold ChatPage.sendMessage_begin.
    destruct (_ || _); by split; [|repeat constructor].
  - destruct (ChatPage.v_input_disabled _); [by split; [|constructor]|].
    unfold ChatPage.handleKeyDown, ChatPage.sendMessage_begin.
    destruct (_ && _); [|by split; [|constructor]].
    destruct (_ || _); by split; [|repeat constructor].
  - destruct (ChatPage.topic_button_at _ _ _); [|by split; [|constructor]].
    destruct (ChatPage.tb_disabled _); [by split; [|constructor]|].
    unfold ChatPage.handleTopicSelect_begin.
    destruct (ChatPage.loading s); by split; [|repeat constructor].
  - destruct (_ <$> _) as [[]|]; try (by split; [|constructor]).
    unfold ChatPage.handleFeedback.
    destruct (Js.or_undefined _); by split; [|repeat constructor].
  - destruct (calls !! k) as [c|]; [|by split; [|constructor]].
    destruct c, r; cbn; try (by split; [|constructor]).
    + split; [|constructor].
      unfold ChatPage.sendMessage_end.
      destruct (Api.sendMessage_response r); cbn; [|done].
      by rewrite ChatPage_on_response_escalationSent.
    + split; [|constructor].
      unfold ChatPage.handleTopicSelect_end.
      destruct (Api.sendMessage_response r); cbn; [|done].
      by rewrite ChatPage_on_response_escalationSent.
    + split; [|constructor].
      unfold ChatPage.handleEscalation_end.
      by destruct (Api.createEscalation_response r).
Qed.

(** The chat page keeps the promise of the flag: after a ticket has been
    created the form is never rendered again and no further ticket is
    requested, whatever happens next. *)
Lemma ChatPage_escalation_one_shot p k r es :
  ChatPage.calls p !! k = Some ChatPage.CallEscalation →
  let p1 := (ChatPage.step p
               (ChatPage.Settle k
                  (ChatPage.SettledEscalation (Sample.ok r)))).1 in
  let p2 := (ChatPage.run p1 es).1 in
  ChatPage.v_escalation (ChatPage.render (ChatPage.state p2)) = None
  ∧ Forall (λ rq, creates_ticket rq = false) (ChatPage.run p1 es).2.
Proof.
  intros Hk p1 p2.
  assert (ChatPage.escalationSent (ChatPage.state p1) = true) as H1.
  { unfold p1. cbn. by rewrite Hk. }
  destruct (run_invariant ChatPage.step
              (λ p, ChatPage.escalationSent (ChatPage.state p) = true)
              (λ rq, creates_ticket rq = false)
              ChatPage_escalationSent_step es p1 H1) as [H2 Hout].
  split; [|done]. unfold ChatPage.render.
  cbn [ChatPage.v_escalation]. unfold p2, ChatPage.run.
  rewrite H2. by rewrite andb_false_r.
Qed.

End EscalationFlag.

(** C3.  The widgets have no such flag: after a ticket has been created
    for the session, the escalation button is still rendered on the answer,
    and a second click sends a second [createEscalation] for the same
    session. *)
Theorem ChatWidget_escalation_can_be_repeated :
  let first := [ChatWidget.ClickEscalate 2;
                ChatWidget.Settle 0
                  (ChatWidget.SettledEscalation (Sample.ok Sample.ticket))] in
  let w := Sample.widget_after Sample.weak_answer in
  let w1 := (ChatWidget.run w first).1 in
  (ChatWidget.run w first).2 = [Api.createEscalation_request "s1" None None]
  ∧ ChatWidget_offers_escalation w1 2 = true
  ∧ (ChatWidget.step w1 (ChatWidget.ClickEscalate 2)).2
      = [Api.createEscalation_request "s1" None None]
  ∧ (ChatWidgetClarify.run (Sample.topic_widget_after Sample.weak_answer)
       [ChatWidgetClarify.ClickEscalate 2;
        ChatWidgetClarify.Settle 0
          (ChatWidgetClarify.SettledEscalation (Sample.ok Sample.ticket));
        ChatWidgetClarify.ClickEscalate 2]).2
      = [Api.createEscalation_request "s1" None None;
         Api.createEscalation_request "s1" None None].
Proof. by vm_compute. Qed.

(** ** The session token *)

Section ListFacts.

Context {A B : Type} (f : A → option B).

Lemma omap_delete_None (l : list A) k x :
  l !! k = Some x → f x = None → omap f (delete k l) = omap f l.
Proof.
  revert k. induction l as [|a l IH]; intros [|k]; cbn; try done.
  - intros [= ->] ->. done.
  - intros Hk Hx. pose proof (IH k Hk Hx) as E.
    destruct (f a) as [b|]; [exact (f_equal (cons b) E)|exact E].
Qed.

Lemma omap_delete_Some (l : list A) k x y :
  l !! k = Some x → f x = Some y →
  ∃ l1 l2, omap f l = l1 ++ y :: l2 ∧ omap f (delete k l) = l1 ++ l2.
Proof.
  revert k. induction l as [|a l IH]; intros [|k]; cbn; try done.
  - intros [= ->] ->. by exists [], (omap f l).
  - intros Hk Hx. destruct (IH k Hk Hx) as (l1 & l2 & H1 & H2).
    destruct (f a) as [b|].
    + exists (b :: l1), l2.
      split; [exact (f_equal (cons b) H1)|exact (f_equal (cons b) H2)].
    + exists l1, l2. split; [exact H1|exact H2].
Qed.

(** When a single element is waiting, it is the one that is taken. *)
Lemma omap_delete_single (l : list A) k x y z :
  l !! k = Some x → f x = Some y → omap f l = [z] →
  z = y ∧ omap f (delete k l) = [].
Proof.
  intros Hk Hx Hl. destruct (omap_delete_Some l k x y Hk Hx)
    as (l1 & l2 & H1 & H2).
  rewrite Hl in H1. destruct l1 as [|b l1].
  - simpl in H1. injection H1 as -> <-. by rewrite H2.
  - injection H1 as _ H1. by destruct l1.
Qed.

Lemma omap_delete_empty (l : list A) k x y :
  l !! k = Some x → f x = Some y → omap f l ≠ [].
Proof.
  intros Hk Hx Hl. destruct (omap_delete_Some l k x y Hk Hx)
    as (l1 & l2 & H1 & _).
  rewrite Hl in H1. by destruct l1.
Qed.

End ListFacts.

Section ChatPageToken.

Local Arguments Js.trim : simpl never.
Local Arguments Js.String_of_nat : simpl never.
Local Arguments String.append : simpl never.

Lemma carries_chat_request text sid :
  carries sid (Api.sendMessage_request text (Js.or_undefined sid)).
Proof. rewrite sendMessage_request_chat. by destruct sid as [[|a t]|]. Qed.

Lemma carries_createEscalation sid tok reason contact :
  Js.or_undefined sid = Some tok →
  carries sid (Api.createEscalation_request tok reason contact).
Proof. destruct sid as [[|a t]|]; try done. by intros [= <-]. Qed.

Lemma carries_sendFeedback sid tok rating index comment :
  Js.or_undefined sid = Some tok →
  carries sid (Api.sendFeedback_request tok rating index comment).
Proof. destruct sid as [[|a t]|]; try done. by intros [= <-]. Qed.

(** Every request of the chat page is made on behalf of the session id
    held when it is sent. *)
Lemma ChatPage_step_carries p e :
  Forall (carries (ChatPage.sessionId (ChatPage.state p)))
    (ChatPage.step p e).2.
Proof.
  destruct p as [s calls].
  destruct e; unfold ChatPage.step; cbn [ChatPage.state ChatPage.calls];
    unfold ChatPage.idle, ChatPage.update, ChatPage.issue.
  - destruct (ChatPage.v_input_disabled _); by constructor.
  - destruct (ChatPage.v_send_disabled _); [by constructor|].
    unfold ChatPage.sendMessage_begin.
    destruct (_ || _); [by constructor|].
    repeat constructor. apply carries_chat_request.
  - destruct (ChatPage.v_input_disabled _); [by constructor|].
    unfold ChatPage.handleKeyDown, ChatPage.sendMessage_begin.
    destruct (_ && _); [|by constructor].
    destruct (_ || _); [by constructor|].
    repeat constructor. apply carries_chat_request.
  - destruct (ChatPage.topic_button_at _ _ _); [|by constructor].
    destruct (ChatPage.tb_disabled _); [by constructor|].
    unfold ChatPage.handleTopicSelect_begin.
    destruct (ChatPage.loading s); [by constructor|].
    repeat constructor. apply carries_chat_request.
  - destruct (_ <$> _) as [[]|]; try (by constructor).
    unfold ChatPage.handleFeedback.
    destruct (Js.or_undefined _) eqn:Hsid; [|by constructor].
    repeat constructor. by apply carries_sendFeedback.
  - destruct (ChatPage.v_escalation _); by constructor.
  - destruct (ChatPage.v_escalation _); by constructor.
  - destruct (ChatPage.v_escalation _); [|by constructor].
    unfold ChatPage.handleEscalation_begin.
    destruct (Js.or_undefined _) eqn:Hsid; [|by constructor].
    repeat constructor. by apply carries_createEscalation.
  - destruct (ChatPage.v_escalation _); by constructor.
  - destruct (calls !! k) as [c|]; [|by constructor].
    destruct (ChatPage.settle_call _ _ _); by constructor.
Qed.

End ChatPageToken.

Section TokenDiscipline.

Lemma advance_disciplined got v v' :
  disciplined v → advance got v v' → disciplined v'.
Proof.
  unfold disciplined.
  intros Hv [-> | [[Hbusy ->] | (l1 & c & l2 & Hin & Hin' & Hbusy' & _)]].
  - done.
  - simpl. destruct (in_flight v) as [|c [|c' l]]; simpl; try done.
    destruct Hv as [Hv _]. congruence.
  - rewrite Hin in Hv. rewrite Hin'.
    destruct l1 as [|a [|b l1]], l2 as [|a' l2]; simpl in *; done.
Qed.

(** A session id that is held is never replaced. *)
Lemma advance_keeps_token got v v' t :
  disciplined v → advance got v v' →
  held v = Some t → Js.truthy t = true → held v' = Some t.
Proof.
  unfold disciplined.
  intros Hv [-> | [[Hbusy ->] | (l1 & c & l2 & Hin & _ & _ & Hheld)]] Ht Htr;
    try done.
  destruct Hheld as [-> | (Hc & _ & _)]; [done|].
  rewrite Hin in Hv.
  destruct l1 as [|a [|b l1]], l2 as [|a' l2]; simpl in *; try done.
  destruct Hv as [_ ->]. rewrite Ht in Hc. simpl in Hc. congruence.
Qed.

(** A session id that appears has been received with a chat response. *)
Lemma advance_first_token got v v' :
  advance got v v' →
  Js.truthy_opt (held v) = false → Js.truthy_opt (held v') = true →
  held v' = got.
Proof.
  intros [-> | [[Hbusy ->] | (l1 & c & l2 & _ & _ & _ & Hheld)]] Hv Hv';
    simpl in *; try congruence.
  destruct Hheld as [E | (_ & _ & E)]; [|done]. rewrite E in Hv'. congruence.
Qed.

Lemma carries_falsy tok rq :
  Js.truthy_opt tok = false → carries tok rq → carries None rq.
Proof. by destruct tok as [[|a t]|]. Qed.

Context {P E : Type} (step : P → E → P * list Api.Request).
Context (sending : P → Sending) (received : E → option string).
Context (step_advance :
           ∀ p e, advance (received e) (sending p) (sending (step p e).1)).
Context (step_carries :
           ∀ p e, Forall (carries (held (sending p))) (step p e).2).

Lemma run_disciplined es p :
  disciplined (sending p) → disciplined (sending (Trace.run step p es).1).
Proof.
  intros Hp.
  apply (run_invariant step (λ p, disciplined (sending p)) (λ _, True));
    [|done].
  intros q e Hq. split; [by eapply advance_disciplined|].
  by apply Forall_true.
Qed.

(** Once a session id is held, it is held for ever and every request is
    made on its behalf. *)
Lemma run_keeps_token es p t :
  disciplined (sending p) → held (sending p) = Some t →
  Js.truthy t = true →
  held (sending (Trace.run step p es).1) = Some t
  ∧ Forall (carries (Some t)) (Trace.run step p es).2.
Proof.
  intros Hp Ht Htr.
  destruct (run_invariant step
              (λ p, disciplined (sending p) ∧ held (sending p) = Some t)
              (carries (Some t))) with (es := es) (s := p)
    as [[_ H] Hout]; [|done|done].
  intros q e [Hq Hheld]. split; [split|].
  - by eapply advance_disciplined.
  - by eapply advance_keeps_token.
  - rewrite <- Hheld. apply step_carries.
Qed.

(** While no session id is held, every request is made without one. *)
Lemma run_without_token es p :
  disciplined (sending p) →
  Js.truthy_opt (held (sending (Trace.run step p es).1)) = false →
  Forall (carries None) (Trace.run step p es).2.
Proof.
  revert p. induction es as [|e es IH]; intros p Hp Hend; [by constructor|].
  rewrite run_cons in Hend |- *. simpl in Hend |- *.
  assert (disciplined (sending (step p e).1)) as Hp1.
  { by eapply advance_disciplined. }
  assert (∀ q, disciplined (sending q) →
               Js.truthy_opt (held (sending q)) = true →
               Js.truthy_opt
                 (held (sending (Trace.run step q es).1)) = true) as Hkeep.
  { intros q Hq Hheld.
    destruct (held (sending q)) as [t|] eqn:Ht; [|done]. simpl in Hheld.
    destruct (run_keeps_token es q t Hq Ht Hheld) as [-> _]. done. }
  destruct (Js.truthy_opt (held (sending (step p e).1))) eqn:H1.
  { rewrite (Hkeep _ Hp1 H1) in Hend. done. }
  destruct (Js.truthy_opt (held (sending p))) eqn:H0.
  { destruct (held (sending p)) as [t|] eqn:Ht; [|done]. simpl in H0.
    rewrite (advance_keeps_token _ _ _ t Hp (step_advance p e) Ht H0) in H1.
    simpl in H1. congruence. }
  apply Forall_app. split; [|by apply IH].
  eapply Forall_impl; [apply step_carries|].
  intros rq. by apply carries_falsy.
Qed.

(** The discipline of the session token, for a component that starts
    without chat calls in flight. *)
Lemma token_discipline start es1 e es2 t :
  disciplined (sending start) →
  let p0 := (Trace.run step start es1).1 in
  let p1 := (step p0 e).1 in
  Js.truthy_opt (held (sending p0)) = false →
  held (sending p1) = Some t →
  Js.truthy t = true →
  received e = Some t
  ∧ Forall (carries None) (Trace.run step start es1).2
  ∧ held (sending (Trace.run step p1 es2).1) = Some t
  ∧ Forall (carries (Some t)) (Trace.run step p1 es2).2.
Proof.
  intros Hstart p0 p1 H0 H1 Ht.
  assert (disciplined (sending p0)) as Hp0 by by apply run_disciplined.
  assert (disciplined (sending p1)) as Hp1.
  { apply (advance_disciplined (received e) (sending p0)); [done|].
    apply step_advance. }
  split; [|split].
  - rewrite <- H1. symmetry.
    apply (advance_first_token _ _ _ (step_advance p0 e) H0).
    fold p1. by rewrite H1.
  - by apply run_without_token.
  - by apply run_keeps_token.
Qed.

End TokenDiscipline.

Section ChatPageAdvance.

Local Arguments Js.trim : simpl never.
Local Arguments Js.String_of_nat : simpl never.
Local Arguments String.append : simpl never.

Lemma ChatPage_sending_issue s s' calls c :
  ChatPage.loading s = false →
  ChatPage.loading s' = true →
  ChatPage.sessionId s' = ChatPage.sessionId s →
  (c = ChatPage.CallSend {| ChatPage.captured_sessionId :=
                              ChatPage.sessionId s |}
   ∨ c = ChatPage.CallTopic {| ChatPage.captured_sessionId :=
                                 ChatPage.sessionId s |}) →
  advance None
    (ChatPage_sending {| ChatPage.state := s; ChatPage.calls := calls |})
    (ChatPage_sending {| ChatPage.state := s';
                         ChatPage.calls := calls ++ [c] |}).
Proof.
  intros Hs Hs' Hsid Hc. right. left. split; [done|].
  unfold ChatPage_sending. cbn [ChatPage.state ChatPage.calls].
  rewrite omap_app, Hs', Hsid. by destruct Hc as [-> | ->].
Qed.

Lemma ChatPage_sending_chat_end got s s' calls k c cl :
  calls !! k = Some c →
  (c = ChatPage.CallSend cl ∨ c = ChatPage.CallTopic cl) →
  ChatPage.loading s' = false →
  (ChatPage.sessionId s' = ChatPage.sessionId s
   ∨ (Js.truthy_opt (ChatPage.captured_sessionId cl) = false
      ∧ is_Some got ∧ ChatPage.sessionId s' = got)) →
  advance got
    (ChatPage_sending {| ChatPage.state := s; ChatPage.calls := calls |})
    (ChatPage_sending {| ChatPage.state := s';
                         ChatPage.calls := delete k calls |}).
Proof.
  intros Hk Hc Hs' Hsid. right. right.
  edestruct (omap_delete_Some
               (λ c, match c with
                     | ChatPage.CallSend cl | ChatPage.CallTopic cl =>
                         Some (ChatPage.captured_sessionId cl)
                     | _ => None
                     end) calls k c (ChatPage.captured_sessionId cl) Hk)
    as (l1 & l2 & H1 & H2); [by destruct Hc as [-> | ->]|].
  exists l1, (ChatPage.captured_sessionId cl), l2.
  unfold ChatPage_sending. cbn [ChatPage.state ChatPage.calls in_flight
    busy held]. by rewrite H1, H2.
Qed.

Lemma ChatPage_sending_other_end got s s' calls k c :
  calls !! k = Some c →
  (c = ChatPage.CallEscalation ∨ c = ChatPage.CallFeedback) →
  ChatPage.loading s' = ChatPage.loading s →
  ChatPage.sessionId s' = ChatPage.sessionId s →
  advance got
    (ChatPage_sending {| ChatPage.state := s; ChatPage.calls := calls |})
    (ChatPage_sending {| ChatPage.state := s';
                         ChatPage.calls := delete k calls |}).
Proof.
  intros Hk Hc Hl Hsid. left.
  unfold ChatPage_sending. cbn [ChatPage.state ChatPage.calls].
  rewrite Hl, Hsid. f_equal.
  apply (omap_delete_None _ calls k c Hk). by destruct Hc as [-> | ->].
Qed.

Lemma ChatPage_on_response_sessionId c r s :
  ChatPage.loading (ChatPage.on_response c r s) = ChatPage.loading s
  ∧ ChatPage.sessionId (ChatPage.on_response c r s) =
      if negb (Js.truthy_opt (ChatPage.captured_sessionId c))
      then Some (Api.session_id r) else ChatPage.sessionId s.
Proof.
  unfold ChatPage.on_response.
  by destruct (negb (Js.truthy_opt _)), (_ && _).
Qed.

Lemma ChatPage_chat_end_sessionId c r s s' :
  (s' = ChatPage.sendMessage_end c (Api.sendMessage_response r) s
   ∨ s' = ChatPage.handleTopicSelect_end c (Api.sendMessage_response r) s) →
  ChatPage.loading s' = false
  ∧ (ChatPage.sessionId s' = ChatPage.sessionId s
     ∨ (Js.truthy_opt (ChatPage.captured_sessionId c) = false
        ∧ is_Some (received_token r)
        ∧ ChatPage.sessionId s' = received_token r)).
Proof.
  unfold received_token, ChatPage.sendMessage_end,
    ChatPage.handleTopicSelect_end.
  intros [-> | ->]; (split; [done|]);
    destruct (Api.sendMessage_response r) as [response|err];
    cbn [ChatPage.sessionId ChatPage.setLoading]; try by left.
  all: rewrite (proj2 (ChatPage_on_response_sessionId c response s)).
  all: destruct (Js.truthy_opt _); cbn; [by left|right; eauto].
Qed.

Lemma ChatPage_advance p e :
  advance (ChatPage_received e) (ChatPage_sending p)
    (ChatPage_sending (ChatPage.step p e).1).
Proof.
  destruct p as [s calls].
  destruct e; unfold ChatPage.step; cbn [ChatPage.state ChatPage.calls];
    unfold ChatPage.idle, ChatPage.update, ChatPage.issue;
    cbn [ChatPage_received].
  - destruct (ChatPage.v_input_disabled _); by left.
  - destruct (ChatPage.v_send_disabled _); [by left|].
    unfold ChatPage.sendMessage_begin.
    destruct (_ || _) eqn:Hguard; [by left|].
    apply orb_false_elim in Hguard as [_ Hl].
    apply ChatPage_sending_issue; auto.
  - destruct (ChatPage.v_input_disabled _); [by left|].
    unfold ChatPage.handleKeyDown, ChatPage.sendMessage_begin.
    destruct (_ && _); [|by left].
    destruct (_ || _) eqn:Hguard; [by left|].
    apply orb_false_elim in Hguard as [_ Hl].
    apply ChatPage_sending_issue; auto.
  - destruct (ChatPage.topic_button_at _ _ _); [|by left].
    destruct (ChatPage.tb_disabled _); [by left|].
    unfold ChatPage.handleTopicSelect_begin.
    destruct (ChatPage.loading s) eqn:Hl; [by left|].
    apply ChatPage_sending_issue; auto.
  - destruct (_ <$> _) as [[]|]; try by left.
    destruct (ChatPage.handleFeedback _ _); [|by left].
    left. unfold ChatPage_sending. cbn [ChatPage.state ChatPage.calls fst].
    by rewrite omap_app, app_nil_r.
  - destruct (ChatPage.v_escalation _); by left.
  - destruct (ChatPage.v_escalation _); by left.
  - destruct (ChatPage.v_escalation _); [|by left].
    destruct (ChatPage.handleEscalation_begin _); [|by left].
    left. unfold ChatPage_sending. cbn [ChatPage.state ChatPage.calls fst].
    by rewrite omap_app, app_nil_r.
  - destruct (ChatPage.v_escalation _); by left.
  - destruct (calls !! k) as [c|] eqn:Hk; [|by left].
    destruct c as [cl|cl| |], r as [r|r|r];
      cbn [ChatPage.settle_call fst]; try by left.
    + edestruct (ChatPage_chat_end_sessionId cl r s) as [Hl Hsid];
        [by left|].
      eapply ChatPage_sending_chat_end; eauto.
    + edestruct (ChatPage_chat_end_sessionId cl r s) as [Hl Hsid];
        [by right|].
      eapply ChatPage_sending_chat_end; eauto.
    + eapply ChatPage_sending_other_end; eauto;
        unfold ChatPage.handleEscalation_end;
        by destruct (Api.createEscalation_response r).
    + eapply ChatPage_sending_other_end; eauto.
Qed.

End ChatPageAdvance.

Section ChatWidgetAdvance.

Local Arguments Js.trim : simpl never.
Local Arguments Js.String_of_nat : simpl never.
Local Arguments String.append : simpl never.

Lemma ChatWidget_useEffect_same s :
  ChatWidget.loading (ChatWidget.useEffect s) = ChatWidget.loading s
  ∧ ChatWidget.sessionId (ChatWidget.useEffect s) = ChatWidget.sessionId s.
Proof. unfold ChatWidget.useEffect. by destruct (ChatWidget.isOpen s). Qed.

Lemma ChatWidget_sendMessage_begin s s' rq c :
  ChatWidget.sendMessage_begin s = Some (s', rq, c) →
  ChatWidget.loading s = false
  ∧ ChatWidget.loading s' = true
  ∧ ChatWidget.sessionId s' = ChatWidget.sessionId s
  ∧ ChatWidget.captured_sessionId c = ChatWidget.sessionId s
  ∧ carries (ChatWidget.sessionId s) rq.
Proof.
  unfold ChatWidget.sendMessage_begin.
  destruct (_ || _) eqn:Hguard; [done|].
  apply orb_false_elim in Hguard as [_ Hl]. intros [= <- <- <-].
  repeat split; try done. apply carries_chat_request.
Qed.

Lemma ChatWidget_sendMessage_end c r s :
  let s' := ChatWidget.sendMessage_end c (Api.sendMessage_response r) s in
  ChatWidget.loading s' = false
  ∧ (ChatWidget.sessionId s' = ChatWidget.sessionId s
     ∨ (Js.truthy_opt (ChatWidget.captured_sessionId c) = false
        ∧ is_Some (received_token r)
        ∧ ChatWidget.sessionId s' = received_token r)).
Proof.
  unfold received_token, ChatWidget.sendMessage_end.
  split; [done|].
  destruct (Api.sendMessage_response r) as [response|err]; [|by left].
  destruct (Js.truthy_opt (ChatWidget.captured_sessionId c)) eqn:Hc;
    cbn [negb]; destruct (negb (ChatWidget.captured_isOpen c)), (_ && _);
    cbn; (by left) || (right; eauto).
Qed.

Lemma ChatWidget_sending_issue w s' c :
  ChatWidget.loading (ChatWidget.state w) = false →
  ChatWidget.loading s' = true →
  ChatWidget.sessionId s' = ChatWidget.sessionId (ChatWidget.state w) →
  ChatWidget.captured_sessionId c
    = ChatWidget.sessionId (ChatWidget.state w) →
  advance None (ChatWidget_sending w)
    (ChatWidget_sending
       {| ChatWidget.pathname := ChatWidget.pathname w;
          ChatWidget.state := s';
          ChatWidget.calls :=
            ChatWidget.calls w ++ [ChatWidget.CallSend c] |}).
Proof.
  intros Hs Hs' Hsid Hc. right. left. split; [done|].
  unfold ChatWidget_sending. cbn [ChatWidget.state ChatWidget.calls].
  rewrite omap_app, Hs', Hsid. cbn. by rewrite Hc.
Qed.

Lemma ChatWidget_sending_same w s' calls' :
  ChatWidget.loading s' = ChatWidget.loading (ChatWidget.state w) →
  ChatWidget.sessionId s' = ChatWidget.sessionId (ChatWidget.state w) →
  omap (λ c, match c with
             | ChatWidget.CallSend cl =>
                 Some (ChatWidget.captured_sessionId cl)
             | _ => None
             end) calls' = in_flight (ChatWidget_sending w) →
  ∀ got, advance got (ChatWidget_sending w)
    (ChatWidget_sending
       {| ChatWidget.pathname := ChatWidget.pathname w;
          ChatWidget.state := s'; ChatWidget.calls := calls' |}).
Proof.
  intros Hl Hsid Hcalls got. left. unfold ChatWidget_sending.
  cbn [ChatWidget.state ChatWidget.calls]. by rewrite Hl, Hsid, Hcalls.
Qed.

Lemma ChatWidget_settle_advance w k r :
  advance (ChatWidget_received (ChatWidget.Settle k r))
    (ChatWidget_sending w)
    (ChatWidget_sending (ChatWidget.settle w k r).1).
Proof.
  unfold ChatWidget.settle, ChatWidget.idle.
  destruct (ChatWidget.calls w !! k) as [c|] eqn:Hk; [|by left].
  destruct c as [cl|], r as [r|r];
    cbn [ChatWidget.settle_call fst ChatWidget_received]; try by left.
  - destruct (ChatWidget_sendMessage_end cl r (ChatWidget.state w))
      as [Hl Hsid].
    destruct (ChatWidget_useEffect_same
                (ChatWidget.sendMessage_end cl (Api.sendMessage_response r)
                   (ChatWidget.state w))) as [El Esid].
    right. right.
    edestruct (omap_delete_Some
                 (λ c, match c with
                       | ChatWidget.CallSend cl =>
                           Some (ChatWidget.captured_sessionId cl)
                       | _ => None
                       end) (ChatWidget.calls w) k _
                 (ChatWidget.captured_sessionId cl) Hk)
      as (l1 & l2 & H1 & H2); [done|].
    exists l1, (ChatWidget.captured_sessionId cl), l2.
    unfold ChatWidget_sending.
    cbn [ChatWidget.state ChatWidget.calls in_flight busy held].
    rewrite H1, H2, El, Esid. by rewrite Hl.
  - apply ChatWidget_sending_same.
    + unfold ChatWidget.handleEscalation_end.
      destruct (Api.createEscalation_response r); cbn; [|done].
      by rewrite (proj1 (ChatWidget_useEffect_same _)).
    + unfold ChatWidget.handleEscalation_end.
      destruct (Api.createEscalation_response r); cbn; [|done].
      by rewrite (proj2 (ChatWidget_useEffect_same _)).
    + by apply (omap_delete_None _ _ k ChatWidget.CallEscalation).
Qed.

Lemma ChatWidget_advance w e :
  advance (ChatWidget_received e) (ChatWidget_sending w)
    (ChatWidget_sending (ChatWidget.step w e).1).
Proof.
  unfold ChatWidget.step.
  destruct e; try apply ChatWidget_settle_advance;
    destruct (ChatWidget.render _ _) as [vw|]; try (by left);
    unfold ChatWidget.idle, ChatWidget.update;
    cbn [ChatWidget_received fst].
  - apply ChatWidget_sending_same; [| |done].
    + by rewrite (proj1 (ChatWidget_useEffect_same _)).
    + by rewrite (proj2 (ChatWidget_useEffect_same _)).
  - destruct (ChatWidget.v_window vw); by left.
  - destruct (ChatWidget.v_window vw) as [win|]; [|by left].
    destruct (ChatWidget.w_input_disabled win); by left.
  - destruct (ChatWidget.v_window vw) as [win|]; [|by left].
    destruct (ChatWidget.w_send_disabled win); [by left|].
    destruct (ChatWidget.sendMessage_begin _) as [[[s' rq] c]|] eqn:Hb;
      [|by left].
    apply ChatWidget_sendMessage_begin in Hb as (H1 & H2 & H3 & H4 & _).
    apply ChatWidget_sending_issue; try done.
    + by rewrite (proj1 (ChatWidget_useEffect_same _)).
    + by rewrite (proj2 (ChatWidget_useEffect_same _)).
  - destruct (ChatWidget.v_window vw) as [win|]; [|by left].
    destruct (ChatWidget.w_input_disabled win); [by left|].
    unfold ChatWidget.handleKeyDown. destruct (_ && _); [|by left].
    destruct (ChatWidget.sendMessage_begin _) as [[[s' rq] c]|] eqn:Hb;
      [|by left].
    apply ChatWidget_sendMessage_begin in Hb as (H1 & H2 & H3 & H4 & _).
    apply ChatWidget_sending_issue; try done.
    + by rewrite (proj1 (ChatWidget_useEffect_same _)).
    + by rewrite (proj2 (ChatWidget_useEffect_same _)).
  - destruct (ChatWidget.v_window vw) as [win|]; [|by left].
    destruct (ChatWidget.escalation_button_at win i); [|by left].
    destruct (ChatWidget.handleEscalation_begin _); [|by left].
    apply ChatWidget_sending_same; try done.
    cbn. by rewrite omap_app, app_nil_r.
Qed.

Lemma ChatWidget_step_carries w e :
  Forall (carries (ChatWidget.sessionId (ChatWidget.state w)))
    (ChatWidget.step w e).2.
Proof.
  unfold ChatWidget.step.
  destruct e;
    try (unfold ChatWidget.settle, ChatWidget.idle;
         destruct (ChatWidget.calls w !! k); [|by constructor];
         destruct (ChatWidget.settle_call _ _ _); by constructor);
    destruct (ChatWidget.render _ _) as [vw|]; try (by constructor);
    unfold ChatWidget.idle, ChatWidget.update.
  - destruct (ChatWidget.v_window vw); by constructor.
  - destruct (ChatWidget.v_window vw) as [win|]; [|by constructor].
    destruct (ChatWidget.w_input_disabled win); by constructor.
  - destruct (ChatWidget.v_window vw) as [win|]; [|by constructor].
    destruct (ChatWidget.w_send_disabled win); [by constructor|].
    destruct (ChatWidget.sendMessage_begin _) as [[[s' rq] c]|] eqn:Hb;
      [|by constructor].
    apply ChatWidget_sendMessage_begin in Hb as (_ & _ & _ & _ & Hrq).
    by repeat constructor.
  - destruct (ChatWidget.v_window vw) as [win|]; [|by constructor].
    destruct (ChatWidget.w_input_disabled win); [by constructor|].
    unfold ChatWidget.handleKeyDown. destruct (_ && _); [|by constructor].
    destruct (ChatWidget.sendMessage_begin _) as [[[s' rq] c]|] eqn:Hb;
      [|by constructor].
    apply ChatWidget_sendMessage_begin in Hb as (_ & _ & _ & _ & Hrq).
    by repeat constructor.
  - destruct (ChatWidget.v_window vw) as [win|]; [|by constructor].
    destruct (ChatWidget.escalation_button_at win i); [|by constructor].
    unfold ChatWidget.handleEscalation_begin.
    destruct (Js.or_undefined _) eqn:Hsid; [|by constructor].
    repeat constructor. by apply carries_createEscalation.
Qed.

End ChatWidgetAdvance.

Section ChatWidgetClarifyAdvance.

Local Arguments Js.trim : simpl never.
Local Arguments Js.String_of_nat : simpl never.
Local Arguments String.append : simpl never.

Lemma ChatWidgetClarify_useEffect_same s :
  ChatWidgetClarify.loading (ChatWidgetClarify.useEffect s) = ChatWidgetClarify.loading s
  ∧ ChatWidgetClarify.sessionId (ChatWidgetClarify.useEffect s) = ChatWidgetClarify.sessionId s.
Proof. unfold ChatWidgetClarify.useEffect. by destruct (ChatWidgetClarify.isOpen s). Qed.

Lemma ChatWidgetClarify_sendMessage_begin s s' rq c :
  ChatWidgetClarify.sendMessage_begin s = Some (s', rq, c) →
  ChatWidgetClarify.loading s = false
  ∧ ChatWidgetClarify.loading s' = true
  ∧ ChatWidgetClarify.sessionId s' = ChatWidgetClarify.sessionId s
  ∧ ChatWidgetClarify.captured_sessionId c = ChatWidgetClarify.sessionId s
  ∧ carries (ChatWidgetClarify.sessionId s) rq.
Proof.
  unfold ChatWidgetClarify.sendMessage_begin.
  destruct (_ || _) eqn:Hguard; [done|].
  apply orb_false_elim in Hguard as [_ Hl]. intros [= <- <- <-].
  repeat split; try done. apply carries_chat_request.
Qed.

Lemma ChatWidgetClarify_sendMessage_end c r s :
  let s' := ChatWidgetClarify.sendMessage_end c (Api.sendMessage_response r) s in
  ChatWidgetClarify.loading s' = false
  ∧ (ChatWidgetClarify.sessionId s' = ChatWidgetClarify.sessionId s
     ∨ (Js.truthy_opt (ChatWidgetClarify.captured_sessionId c) = false
        ∧ is_Some (received_token r)
        ∧ ChatWidgetClarify.sessionId s' = received_token r)).
Proof.
  unfold received_token, ChatWidgetClarify.sendMessage_end.
  split; [done|].
  destruct (Api.sendMessage_response r) as [response|err]; [|by left].
  destruct (Js.truthy_opt (ChatWidgetClarify.captured_sessionId c)) eqn:Hc;
    cbn [negb]; destruct (negb (ChatWidgetClarify.captured_isOpen c)),
      (_ && _ && _);
    cbn; (by left) || (right; eauto).
Qed.

Lemma ChatWidgetClarify_handleTopicSelect_begin j s s' rq c :
  ChatWidgetClarify.handleTopicSelect_begin j s = Some (s', rq, c) →
  ChatWidgetClarify.loading s = false
  ∧ ChatWidgetClarify.loading s' = true
  ∧ ChatWidgetClarify.sessionId s' = ChatWidgetClarify.sessionId s
  ∧ ChatWidgetClarify.captured_sessionId c = ChatWidgetClarify.sessionId s
  ∧ carries (ChatWidgetClarify.sessionId s) rq.
Proof.
  unfold ChatWidgetClarify.handleTopicSelect_begin.
  destruct (ChatWidgetClarify.loading s) eqn:Hl; [done|].
  intros [= <- <- <-].
  repeat split; try done. apply carries_chat_request.
Qed.

Lemma ChatWidgetClarify_handleTopicSelect_end c r s :
  let s' := ChatWidgetClarify.handleTopicSelect_end c
              (Api.sendMessage_response r) s in
  ChatWidgetClarify.loading s' = false
  ∧ (ChatWidgetClarify.sessionId s' = ChatWidgetClarify.sessionId s
     ∨ (Js.truthy_opt (ChatWidgetClarify.captured_sessionId c) = false
        ∧ is_Some (received_token r)
        ∧ ChatWidgetClarify.sessionId s' = received_token r)).
Proof.
  unfold received_token, ChatWidgetClarify.handleTopicSelect_end.
  split; [done|].
  destruct (Api.sendMessage_response r) as [response|err]; [|by left].
  destruct (Js.truthy_opt (ChatWidgetClarify.captured_sessionId c)) eqn:Hc;
    cbn; (by left) || (right; eauto).
Qed.

Lemma ChatWidgetClarify_sending_issue w s' c call :
  ChatWidgetClarify.loading (ChatWidgetClarify.state w) = false →
  ChatWidgetClarify.loading s' = true →
  ChatWidgetClarify.sessionId s' = ChatWidgetClarify.sessionId (ChatWidgetClarify.state w) →
  ChatWidgetClarify.captured_sessionId c
    = ChatWidgetClarify.sessionId (ChatWidgetClarify.state w) →
  (call = ChatWidgetClarify.CallSend c
   ∨ call = ChatWidgetClarify.CallTopic c) →
  advance None (ChatWidgetClarify_sending w)
    (ChatWidgetClarify_sending
       {| ChatWidgetClarify.pathname := ChatWidgetClarify.pathname w;
          ChatWidgetClarify.state := s';
          ChatWidgetClarify.calls :=
            ChatWidgetClarify.calls w ++ [call] |}).
Proof.
  intros Hs Hs' Hsid Hc Hcall. right. left. split; [done|].
  unfold ChatWidgetClarify_sending.
  cbn [ChatWidgetClarify.state ChatWidgetClarify.calls].
  rewrite omap_app, Hs', Hsid. destruct Hcall as [-> | ->]; cbn;
    by rewrite Hc.
Qed.

Lemma ChatWidgetClarify_sending_same w s' calls' :
  ChatWidgetClarify.loading s' = ChatWidgetClarify.loading (ChatWidgetClarify.state w) →
  ChatWidgetClarify.sessionId s' = ChatWidgetClarify.sessionId (ChatWidgetClarify.state w) →
  omap (λ c, match c with
             | ChatWidgetClarify.CallSend cl
             | ChatWidgetClarify.CallTopic cl =>
                 Some (ChatWidgetClarify.captured_sessionId cl)
             | _ => None
             end) calls' = in_flight (ChatWidgetClarify_sending w) →
  ∀ got, advance got (ChatWidgetClarify_sending w)
    (ChatWidgetClarify_sending
       {| ChatWidgetClarify.pathname := ChatWidgetClarify.pathname w;
          ChatWidgetClarify.state := s'; ChatWidgetClarify.calls := calls' |}).
Proof.
  intros Hl Hsid Hcalls got. left. unfold ChatWidgetClarify_sending.
  cbn [ChatWidgetClarify.state ChatWidgetClarify.calls]. by rewrite Hl, Hsid, Hcalls.
Qed.

Lemma ChatWidgetClarify_settle_advance w k r :
  advance (ChatWidgetClarify_received (ChatWidgetClarify.Settle k r))
    (ChatWidgetClarify_sending w)
    (ChatWidgetClarify_sending (ChatWidgetClarify.settle w k r).1).
Proof.
  unfold ChatWidgetClarify.settle, ChatWidgetClarify.idle.
  destruct (ChatWidgetClarify.calls w !! k) as [c|] eqn:Hk; [|by left].
  destruct c as [cl|cl|], r as [r|r];
    cbn [ChatWidgetClarify.settle_call fst ChatWidgetClarify_received];
    try by left.
  - destruct (ChatWidgetClarify_sendMessage_end cl r
                (ChatWidgetClarify.state w)) as [Hl Hsid].
    destruct (ChatWidgetClarify_useEffect_same
                (ChatWidgetClarify.sendMessage_end cl
                   (Api.sendMessage_response r)
                   (ChatWidgetClarify.state w))) as [El Esid].
    right. right.
    edestruct (omap_delete_Some
                 (λ c, match c with
                       | ChatWidgetClarify.CallSend cl
                       | ChatWidgetClarify.CallTopic cl =>
                           Some (ChatWidgetClarify.captured_sessionId cl)
                       | _ => None
                       end) (ChatWidgetClarify.calls w) k _
                 (ChatWidgetClarify.captured_sessionId cl) Hk)
      as (l1 & l2 & H1 & H2); [done|].
    exists l1, (ChatWidgetClarify.captured_sessionId cl), l2.
    unfold ChatWidgetClarify_sending.
    cbn [ChatWidgetClarify.state ChatWidgetClarify.calls in_flight busy
           held].
    rewrite H1, H2, El, Esid. by rewrite Hl.
  - destruct (ChatWidgetClarify_handleTopicSelect_end cl r
                (ChatWidgetClarify.state w)) as [Hl Hsid].
    destruct (ChatWidgetClarify_useEffect_same
                (ChatWidgetClarify.handleTopicSelect_end cl
                   (Api.sendMessage_response r)
                   (ChatWidgetClarify.state w))) as [El Esid].
    right. right.
    edestruct (omap_delete_Some
                 (λ c, match c with
                       | ChatWidgetClarify.CallSend cl
                       | ChatWidgetClarify.CallTopic cl =>
                           Some (ChatWidgetClarify.captured_sessionId cl)
                       | _ => None
                       end) (ChatWidgetClarify.calls w) k _
                 (ChatWidgetClarify.captured_sessionId cl) Hk)
      as (l1 & l2 & H1 & H2); [done|].
    exists l1, (ChatWidgetClarify.captured_sessionId cl), l2.
    unfold ChatWidgetClarify_sending.
    cbn [ChatWidgetClarify.state ChatWidgetClarify.calls in_flight busy
           held].
    rewrite H1, H2, El, Esid. by rewrite Hl.
  - apply ChatWidgetClarify_sending_same.
    + unfold ChatWidgetClarify.handleEscalation_end.
      destruct (Api.createEscalation_response r); cbn; [|done].
      by rewrite (proj1 (ChatWidgetClarify_useEffect_same _)).
    + unfold ChatWidgetClarify.handleEscalation_end.
      destruct (Api.createEscalation_response r); cbn; [|done].
      by rewrite (proj2 (ChatWidgetClarify_useEffect_same _)).
    + by apply (omap_delete_None _ _ k ChatWidgetClarify.CallEscalation).
Qed.

Lemma ChatWidgetClarify_advance w e :
  advance (ChatWidgetClarify_received e) (ChatWidgetClarify_sending w)
    (ChatWidgetClarify_sending (ChatWidgetClarify.step w e).1).
Proof.
  unfold ChatWidgetClarify.step.
  destruct e; try apply ChatWidgetClarify_settle_advance;
    destruct (ChatWidgetClarify.render _ _) as [vw|]; try (by left);
    unfold ChatWidgetClarify.idle, ChatWidgetClarify.update;
    cbn [ChatWidgetClarify_received fst].
  - apply ChatWidgetClarify_sending_same; [| |done].
    + by rewrite (proj1 (ChatWidgetClarify_useEffect_same _)).
    + by rewrite (proj2 (ChatWidgetClarify_useEffect_same _)).
  - destruct (ChatWidgetClarify.v_window vw); by left.
  - destruct (ChatWidgetClarify.v_window vw) as [win|]; [|by left].
    destruct (ChatWidgetClarify.w_input_disabled win); by left.
  - destruct (ChatWidgetClarify.v_window vw) as [win|]; [|by left].
    destruct (ChatWidgetClarify.w_send_disabled win); [by left|].
    destruct (ChatWidgetClarify.sendMessage_begin _) as [[[s' rq] c]|] eqn:Hb;
      [|by left].
    apply ChatWidgetClarify_sendMessage_begin in Hb
      as (H1 & H2 & H3 & H4 & _).
    apply (ChatWidgetClarify_sending_issue _ _ c); auto.
    + by rewrite (proj1 (ChatWidgetClarify_useEffect_same _)).
    + by rewrite (proj2 (ChatWidgetClarify_useEffect_same _)).
  - destruct (ChatWidgetClarify.v_window vw) as [win|]; [|by left].
    destruct (ChatWidgetClarify.w_input_disabled win); [by left|].
    unfold ChatWidgetClarify.handleKeyDown. destruct (_ && _); [|by left].
    destruct (ChatWidgetClarify.sendMessage_begin _) as [[[s' rq] c]|] eqn:Hb;
      [|by left].
    apply ChatWidgetClarify_sendMessage_begin in Hb
      as (H1 & H2 & H3 & H4 & _).
    apply (ChatWidgetClarify_sending_issue _ _ c); auto.
    + by rewrite (proj1 (ChatWidgetClarify_useEffect_same _)).
    + by rewrite (proj2 (ChatWidgetClarify_useEffect_same _)).
  - destruct (ChatWidgetClarify.v_window vw) as [win|]; [|by left].
    destruct (ChatWidgetClarify.topic_button_at win i j); [|by left].
    destruct (ChatWidgetClarify.tb_disabled _); [by left|].
    destruct (ChatWidgetClarify.handleTopicSelect_begin _ _)
      as [[[s' rq] c]|] eqn:Hb; [|by left].
    apply ChatWidgetClarify_handleTopicSelect_begin in Hb
      as (H1 & H2 & H3 & H4 & _).
    apply (ChatWidgetClarify_sending_issue _ _ c); auto.
    + by rewrite (proj1 (ChatWidgetClarify_useEffect_same _)).
    + by rewrite (proj2 (ChatWidgetClarify_useEffect_same _)).
  - destruct (ChatWidgetClarify.v_window vw) as [win|]; [|by left].
    destruct (ChatWidgetClarify.escalation_button_at win i); [|by left].
    destruct (ChatWidgetClarify.handleEscalation_begin _); [|by left].
    apply ChatWidgetClarify_sending_same; try done.
    cbn. by rewrite omap_app, app_nil_r.
Qed.

Lemma ChatWidgetClarify_step_carries w e :
  Forall (carries (ChatWidgetClarify.sessionId (ChatWidgetClarify.state w)))
    (ChatWidgetClarify.step w e).2.
Proof.
  unfold ChatWidgetClarify.step.
  destruct e;
    try (unfold ChatWidgetClarify.settle, ChatWidgetClarify.idle;
         destruct (ChatWidgetClarify.calls w !! k); [|by constructor];
         destruct (ChatWidgetClarify.settle_call _ _ _); by constructor);
    destruct (ChatWidgetClarify.render _ _) as [vw|]; try (by constructor);
    unfold ChatWidgetClarify.idle, ChatWidgetClarify.update.
  - destruct (ChatWidgetClarify.v_window vw); by constructor.
  - destruct (ChatWidgetClarify.v_window vw) as [win|]; [|by constructor].
    destruct (ChatWidgetClarify.w_input_disabled win); by constructor.
  - destruct (ChatWidgetClarify.v_window vw) as [win|]; [|by constructor].
    destruct (ChatWidgetClarify.w_send_disabled win); [by constructor|].
    destruct (ChatWidgetClarify.sendMessage_begin _) as [[[s' rq] c]|] eqn:Hb;
      [|by constructor].
    apply ChatWidgetClarify_sendMessage_begin in Hb as (_ & _ & _ & _ & Hrq).
    by repeat constructor.
  - destruct (ChatWidgetClarify.v_window vw) as [win|]; [|by constructor].
    destruct (ChatWidgetClarify.w_input_disabled win); [by constructor|].
    unfold ChatWidgetClarify.handleKeyDown. destruct (_ && _); [|by constructor].
    destruct (ChatWidgetClarify.sendMessage_begin _) as [[[s' rq] c]|] eqn:Hb;
      [|by constructor].
    apply ChatWidgetClarify_sendMessage_begin in Hb as (_ & _ & _ & _ & Hrq).
    by repeat constructor.
  - destruct (ChatWidgetClarify.v_window vw) as [win|]; [|by constructor].
    destruct (ChatWidgetClarify.topic_button_at win i j);
      [|by constructor].
    destruct (ChatWidgetClarify.tb_disabled _); [by constructor|].
    destruct (ChatWidgetClarify.handleTopicSelect_begin _ _)
      as [[[s' rq] c]|] eqn:Hb; [|by constructor].
    apply ChatWidgetClarify_handleTopicSelect_begin in Hb
      as (_ & _ & _ & _ & Hrq).
    by repeat constructor.
  - destruct (ChatWidgetClarify.v_window vw) as [win|]; [|by constructor].
    destruct (ChatWidgetClarify.escalation_button_at win i);
      [|by constructor].
    unfold ChatWidgetClarify.handleEscalation_begin.
    destruct (Js.or_undefined _) eqn:Hsid; [|by constructor].
    repeat constructor. by apply carries_createEscalation.
Qed.

End ChatWidgetClarifyAdvance.

Section EngineFacts.

Context (generate : list Engine.Turn → string → option string).

Lemma Engine_sendTurn_timely σ sessionId text :
  Engine_timely σ →
  Engine_timely (Engine.sendTurn generate σ sessionId text).1.
Proof.
  intros Hσ sid transcript turn. unfold Engine.sendTurn.
  set (key := match sessionId with
              | Some t => t
              | None => fresh_string "session" (Engine.sessions σ)
              end).
  destruct (generate _ text) as [reply|]; [|by apply Hσ].
  cbn [fst Engine.sessions Engine.clock].
  destruct (decide (key = sid)) as [->|Hne].
  - rewrite lookup_insert_eq. intros [= <-] Hin.
    apply elem_of_app in Hin as [Hin|Hin].
    + destruct (Engine.sessions σ !! sid) as [tr|] eqn:Hsid;
        simpl in Hin; [|by apply elem_of_nil in Hin].
      specialize (Hσ sid tr turn Hsid Hin). lia.
    + apply elem_of_cons in Hin as [->|Hin]; [simpl; lia|].
      apply elem_of_cons in Hin as [->|Hin]; [simpl; lia|].
      by apply elem_of_nil in Hin.
  - rewrite lookup_insert_ne by done. intros Hsid Hin.
    specialize (Hσ sid transcript turn Hsid Hin). lia.
Qed.

Lemma Engine_run_timely calls σ :
  Engine_timely σ → Engine_timely (Engine.run generate σ calls).1.
Proof.
  intros Hσ.
  apply (run_invariant (Engine.step generate) Engine_timely (λ _, True));
    [|done].
  intros τ c Hτ. split; [|by apply Forall_true].
  unfold Engine.step.
  pose proof (Engine_sendTurn_timely τ (Engine.call_session c)
                (Engine.call_text c) Hτ) as H.
  by destruct (Engine.sendTurn _ _ _ _).
Qed.

Lemma Engine_empty_timely : Engine_timely Engine.empty.
Proof.
  intros sid transcript turn. unfold Engine.empty. simpl.
  by rewrite lookup_empty.
Qed.

(** A successful call without a token opens a session under a token that
    was not in use; its transcript is made of the two turns of the call,
    which occur in no earlier transcript, and the earlier transcripts are
    kept. *)
Lemma Engine_new_session calls text σ' reply :
  let σ := (Engine.run generate Engine.empty calls).1 in
  Engine.sendTurn generate σ None text = (σ', Some reply) →
  Engine.sessions σ !! Engine.reply_session reply = None
  ∧ (∃ asked answered,
       Engine.sessions σ' !! Engine.reply_session reply
         = Some [asked; answered]
       ∧ Engine.role asked = Api.user
       ∧ Engine.content asked = text
       ∧ Engine.role answered = Api.assistant
       ∧ Engine.content answered = Engine.reply_answer reply
       ∧ ∀ sid transcript,
           Engine.sessions σ !! sid = Some transcript →
           Engine.sessions σ' !! sid = Some transcript
           ∧ (asked ∉ transcript) ∧ (answered ∉ transcript)).
Proof.
  intros σ.
  assert (Engine_timely σ) as Hσ.
  { apply Engine_run_timely, Engine_empty_timely. }
  pose proof (fresh_string_fresh (Engine.sessions σ) "session") as Hfresh.
  unfold Engine.sendTurn. rewrite Hfresh. cbn [default].
  destruct (generate [] text) as [answer|]; [|done].
  intros [= <- <-].
  cbn [Engine.reply_session Engine.sessions Engine.reply_answer app].
  split; [done|].
  eexists _, _. rewrite lookup_insert_eq.
  split; [done|]. do 4 (split; [done|]).
  intros sid transcript Hsid. split; [|split].
  - rewrite lookup_insert_ne; [done|]. intros <-. congruence.
  - intros Hin. specialize (Hσ sid transcript _ Hsid Hin). simpl in Hσ. lia.
  - intros Hin. specialize (Hσ sid transcript _ Hsid Hin). simpl in Hσ. lia.
Qed.

End EngineFacts.



(** ** The operator panel *)

Section OperatorPanelFacts.

Local Arguments Js.trim : simpl never.
Local Arguments String.append : simpl never.

Import OperatorPanel.

Lemma with_state_frame f p :
  mounted (with_state f p) = mounted p
  ∧ interval (with_state f p) = interval p
  ∧ storage (with_state f p) = storage p
  ∧ calls (with_state f p) = calls p.
Proof. done. Qed.

Lemma loadEscalations_begin_frame cb p :
  let p' := (loadEscalations_begin cb p).1 in
  mounted p' = mounted p
  ∧ interval p' = interval p
  ∧ storage p' = storage p
  ∧ loadEscalations_of (state p') = loadEscalations_of (state p).
Proof.
  unfold loadEscalations_begin.
  destruct (Js.or_undefined _); [|done]. cbn.
  by destruct (mounted p).
Qed.

(** A handler leaves the timer alone and does not mount or unmount. *)
Lemma handle_frame p e :
  mounted (handle p e).1 = mounted p
  ∧ interval (handle p e).1 = interval p.
Proof.
  destruct e; unfold handle, idle; cbv zeta; cbn [fst]; try done.
  - destruct (interval p) as [iv|] eqn:Hi; [|done].
    destruct (loadEscalations_begin_frame (handler iv) p) as (-> & -> & _).
    by rewrite Hi.
  - destruct (mounted p) eqn:Hm, (render (state p)); by cbn.
  - destruct (mounted p) eqn:Hm, (render (state p)); by cbn.
  - destruct (mounted p) eqn:Hm, (render (state p)); by cbn.
  - destruct (mounted p) eqn:Hm, (render (state p)); by cbn.
  - destruct (mounted p) eqn:Hm, (render (state p)); cbn; try done.
    by destruct (bool_decide _).
  - destruct (mounted p) eqn:Hm, (render (state p)); cbn; try done.
    by destruct (bool_decide _).
  - destruct (mounted p) eqn:Hm, (render (state p)) as [|? ? ? ? [?|]];
      by cbn.
  - destruct (mounted p) eqn:Hm, (render (state p)) as [|? ? ? ? [?|]];
      by cbn.
  - destruct (mounted p) eqn:Hm, (render (state p)) as [|? ? ? ? [area|]];
      cbn; try done.
    destruct (ra_send_disabled area); [done|].
    unfold handleReply_begin.
    destruct (Js.or_undefined (token (state p))),
      (Js.or_undefined (selectedId (state p))); try done.
    by destruct (Js.truthy (Js.trim (replyText (state p)))).
  - destruct (calls p !! k) as [c|]; [|done].
    destruct c, r; cbn; try done.
    + unfold loadEscalations_end.
      by destruct (Api.getEscalations_response r).
    + unfold handleLogin_end. by destruct (Api.operatorLogin_response r).
    + unfold handleReply_end.
      destruct (Api.operatorReply_response r); [|done].
      by destruct (loadEscalations_begin_frame loadEscalations
                     (with_state (setCloseTicket false)
                        (with_state (setReplyText "")
                           (with_calls (delete k) p))))
        as (-> & -> & _).
Qed.

End OperatorPanelFacts.

Section OperatorPanelPolling.

Local Arguments Js.trim : simpl never.
Local Arguments String.append : simpl never.

Import OperatorPanel.

Lemma useEffect_polling p :
  mounted p = true → OperatorPanel_polling (useEffect p).1.
Proof.
  intros Hm. unfold useEffect.
  pose proof (loadEscalations_begin_frame (loadEscalations_of (state p))
                (with_interval None p)) as (Hm' & _ & _ & Hcb).
  destruct (loadEscalations_begin _ _) as [p' out]. cbn in *.
  unfold OperatorPanel_polling. cbn. by rewrite Hm', Hm, Hcb.
Qed.

Lemma rerender_polling before p :
  interval p =
    (if mounted p
     then Some {| delay := 15000%N; handler := loadEscalations_of before |}
     else None) →
  OperatorPanel_polling (rerender before p).1.
Proof.
  intros Hi. unfold rerender.
  destruct (mounted p) eqn:Hm.
  - destruct (decide _) as [E|_]; [|by apply useEffect_polling].
    unfold OperatorPanel_polling. cbn. by rewrite Hm, Hi, E.
  - unfold OperatorPanel_polling. cbn. by rewrite Hm, Hi.
Qed.

(** The timer follows the component through every event. *)
Lemma step_polling p e :
  OperatorPanel_polling p → OperatorPanel_polling (step p e).1.
Proof.
  intros Hp. unfold step.
  assert (OperatorPanel_polling
            (let '(p1, out1) := handle p e in
             let '(p2, out2) := rerender (state p) p1 in
             (p2, out1 ++ out2)).1) as Hother.
  { destruct (handle_frame p e) as [Hm Hi].
    destruct (handle p e) as [p1 out1]. cbn in Hm, Hi.
    pose proof (rerender_polling (state p) p1) as H.
    destruct (rerender (state p) p1) as [p2 out2]. cbn in *.
    apply H. by rewrite Hi, Hm. }
  destruct e; try exact Hother.
  - destruct (mounted p) eqn:Hm; [done|]. by apply useEffect_polling.
  - destruct (mounted p) eqn:Hm; [|done].
    unfold OperatorPanel_polling. done.
Qed.

Lemma run_polling es p :
  OperatorPanel_polling p → OperatorPanel_polling (run p es).1.
Proof.
  intros Hp.
  apply (run_invariant step OperatorPanel_polling (λ _, True)); [|done].
  intros q e Hq. split; [by apply step_polling|by apply Forall_true].
Qed.

Lemma unmounted_polling st : OperatorPanel_polling (unmounted st).
Proof. done. Qed.

(** A tick of the timer of a mounted panel runs [loadEscalations]. *)
Lemma tick_polls p tok :
  OperatorPanel_polling p → mounted p = true →
  Js.or_undefined (token (state p)) = Some tok →
  (step p Tick).2 =
    [Api.getEscalations_request tok
       (Js.or_undefined (Some (filter (state p))))].
Proof.
  intros Hp Hm Htok. unfold OperatorPanel_polling in Hp.
  rewrite Hm in Hp. unfold step, handle. rewrite Hp.
  cbn [handler]. unfold loadEscalations_begin.
  cbn [loadEscalations_of cb_token cb_filter]. rewrite Htok.
  unfold rerender. cbn. rewrite Hm. cbn.
  by rewrite decide_True by done.
Qed.

(** Without a mounted panel there is no timer and a tick does nothing. *)
Lemma tick_unmounted p n :
  OperatorPanel_polling p → mounted p = false →
  run p (replicate n Tick) = (p, []).
Proof.
  intros Hp Hm. unfold OperatorPanel_polling in Hp. rewrite Hm in Hp.
  induction n as [|n IH]; [done|].
  unfold run in *. cbn [replicate]. rewrite run_cons.
  assert (step p Tick = (p, [])) as ->.
  { unfold step, handle, rerender. rewrite Hp. cbn. by rewrite Hm. }
  cbn. by rewrite IH.
Qed.

End OperatorPanelPolling.

Section OperatorPanelCredential.

Local Arguments Js.trim : simpl never.
Local Arguments String.append : simpl never.

Import OperatorPanel.

Lemma falsy_or_undefined o :
  Js.truthy_opt o = false → Js.or_undefined o = None.
Proof. by destruct o as [[|a t]|]. Qed.

Lemma falsy_login_form s :
  Js.truthy_opt (token s) = false →
  render s = LoginForm (username s) (password s) (loginError s).
Proof. intros H. unfold render. by rewrite H. Qed.

Lemma useEffect_no_token p :
  Js.truthy_opt (token (state p)) = false →
  useEffect p =
    (with_interval
       (Some {| delay := 15000%N;
                handler := loadEscalations_of (state p) |}) p, []).
Proof.
  intros H. unfold useEffect, loadEscalations_begin.
  cbn [loadEscalations_of cb_token]. cbn [with_interval state].
  by rewrite (falsy_or_undefined _ H).
Qed.

Lemma rerender_logged_out before p :
  (mounted p = true → Js.truthy_opt (token (state p)) = false) →
  storage p !! "op_token" = None →
  Forall (λ c, c = CallGetEscalations) (calls p) →
  interval p =
    (if mounted p
     then Some {| delay := 15000%N; handler := loadEscalations_of before |}
     else None) →
  OperatorPanel_logged_out (rerender before p).1
  ∧ (rerender before p).2 = [].
Proof.
  intros Htok Hst Hcalls Hi.
  pose proof (rerender_polling before p Hi) as Hpoll.
  unfold rerender in *. destruct (mounted p) eqn:Hm.
  - destruct (decide _) as [E|_].
    + split; [|done]. cbn in *. repeat split; try done. by rewrite Hm.
    + rewrite (useEffect_no_token p (Htok eq_refl)) in *. cbn in *.
      split; [|done]. repeat split; try done. intros _. by apply Htok.
  - split; [|done]. cbn in *. repeat split; try done. by rewrite Hm.
Qed.

(** While the operator is logged out, a handler other than the submission
    of the login form sends nothing and leaves the operator logged out. *)
Local Ltac out :=
  cbn [fst snd]; repeat split; try done;
  try (intros; congruence); try (intros; by auto).

Lemma handle_logged_out p e :
  OperatorPanel_logged_out p → e ≠ SubmitLogin →
  let p1 := (handle p e).1 in
  (handle p e).2 = []
  ∧ (mounted p1 = true → Js.truthy_opt (token (state p1)) = false)
  ∧ storage p1 !! "op_token" = None
  ∧ Forall (λ c, c = CallGetEscalations) (calls p1).
Proof.
  intros (Htok & Hst & Hpoll & Hcalls) He.
  unfold OperatorPanel_polling in Hpoll.
  destruct e; unfold handle, idle; cbv zeta; cbn [fst snd];
    try (by out).
  - destruct (mounted p) eqn:Hm; rewrite Hpoll; [|by out].
    unfold loadEscalations_begin. cbn [handler loadEscalations_of cb_token].
    rewrite (falsy_or_undefined _ (Htok eq_refl)). by out.
  - destruct (mounted p) eqn:Hm; [|by out].
    rewrite (falsy_login_form _ (Htok eq_refl)). cbn. rewrite Hm. by out.
  - destruct (mounted p) eqn:Hm; [|by out].
    rewrite (falsy_login_form _ (Htok eq_refl)). cbn. rewrite Hm. by out.
  - destruct (mounted p) eqn:Hm; [|by out].
    rewrite (falsy_login_form _ (Htok eq_refl)). by out.
  - destruct (mounted p) eqn:Hm; [|by out].
    rewrite (falsy_login_form _ (Htok eq_refl)). by out.
  - destruct (mounted p) eqn:Hm; [|by out].
    rewrite (falsy_login_form _ (Htok eq_refl)). by out.
  - destruct (mounted p) eqn:Hm; [|by out].
    rewrite (falsy_login_form _ (Htok eq_refl)). by out.
  - destruct (mounted p) eqn:Hm; [|by out].
    rewrite (falsy_login_form _ (Htok eq_refl)). by out.
  - destruct (mounted p) eqn:Hm; [|by out].
    rewrite (falsy_login_form _ (Htok eq_refl)). by out.
  - destruct (calls p !! k) as [c|] eqn:Hk; [|by out].
    assert (c = CallGetEscalations) as ->.
    { eapply (proj1 (Forall_lookup _ _) Hcalls); eauto. }
    assert (Forall (λ c, c = CallGetEscalations) (delete k (calls p)))
      as Hcalls'.
    { by apply Forall_delete. }
    destruct r as [r| |]; cbn; try (by out).
    unfold loadEscalations_end.
    destruct (Api.getEscalations_response r); cbn.
    + destruct (mounted p) eqn:Hm; by out.
    + rewrite lookup_delete_eq. destruct (mounted p) eqn:Hm; by out.
Qed.

Lemma step_logged_out p e :
  OperatorPanel_logged_out p → e ≠ SubmitLogin →
  OperatorPanel_logged_out (step p e).1 ∧ (step p e).2 = [].
Proof.
  intros Hp He.
  assert (OperatorPanel_logged_out
            (let '(p1, out1) := handle p e in
             let '(p2, out2) := rerender (state p) p1 in
             (p2, out1 ++ out2)).1
          ∧ (let '(p1, out1) := handle p e in
             let '(p2, out2) := rerender (state p) p1 in
             (p2, out1 ++ out2)).2 = []) as Hother.
  { destruct (handle_logged_out p e Hp He) as (Hout & Htok & Hst & Hcalls).
    destruct (handle_frame p e) as [Hm Hi].
    destruct Hp as (_ & _ & Hpoll & _). unfold OperatorPanel_polling in Hpoll.
    destruct (handle p e) as [p1 out1]. cbn in Hout, Htok, Hst, Hcalls, Hm, Hi.
    destruct (rerender_logged_out (state p) p1 Htok Hst Hcalls) as [H1 H2].
    { by rewrite Hi, Hm. }
    destruct (rerender (state p) p1) as [p2 out2]. cbn in *.
    by rewrite Hout, H2. }
  pose proof Hp as (Htok & Hst & Hpoll & Hcalls).
  unfold step. destruct e; try exact Hother.
  - destruct (mounted p) eqn:Hm; [by split|].
    rewrite useEffect_no_token by (cbn; by rewrite Hst).
    cbn. split; [|done]. repeat split; try done. cbn. by rewrite Hst.
  - destruct (mounted p) eqn:Hm; [|by split].
    cbn. by repeat split.
Qed.

(** Logged out, the panel sends nothing until the login form is
    submitted, and keeps showing that form. *)
Lemma run_logged_out es p :
  OperatorPanel_logged_out p → SubmitLogin ∉ es →
  OperatorPanel_logged_out (run p es).1 ∧ (run p es).2 = [].
Proof.
  revert p. induction es as [|e es IH]; intros p Hp Hes; [done|].
  unfold run in *. rewrite run_cons.
  apply not_elem_of_cons in Hes as [He Hes].
  destruct (step_logged_out p e Hp) as [H1 H2]; [done|].
  destruct (IH _ H1 Hes) as [H3 H4]. cbn. by rewrite H2, H4.
Qed.

Lemma rejected_poll_step p k r e :
  calls p !! k = Some CallGetEscalations →
  Api.getEscalations_response r = Api.Rejected e →
  step p (Settle k (SettledGetEscalations r)) =
    (let '(p2, out2) :=
       rerender (state p)
         (loadEscalations_end (Api.Rejected Api.TypeError)
            (with_calls (delete k) p)) in
     (p2, out2)).
Proof.
  intros Hk He. unfold step, handle. rewrite Hk.
  cbn [settle_call from_option idle id]. rewrite He.
  unfold loadEscalations_end. by destruct (rerender _ _).
Qed.

(** What a failed poll does to a mounted panel. *)
Lemma failed_poll p k r :
  mounted p = true →
  calls p !! k = Some CallGetEscalations →
  failed r →
  let p' := (step p (Settle k (SettledGetEscalations r))).1 in
  (step p (Settle k (SettledGetEscalations r))).2 = []
  ∧ token (state p') = None
  ∧ storage p' !! "op_token" = None
  ∧ is_login_form (render (state p')) = true
  ∧ calls p' = delete k (calls p)
  ∧ step p (Settle k (SettledGetEscalations r)) =
      step p (Settle k (SettledGetEscalations (Api.Http 401 None))).
Proof.
  intros Hm Hk [e He]%failed_rejected.
  rewrite (rejected_poll_step p k r e Hk He).
  rewrite (rejected_poll_step p k (Api.Http 401 None) _ Hk eq_refl).
  unfold rerender, loadEscalations_end. cbn. rewrite Hm.
  destruct (decide _) as [E|_]; cbn.
  - rewrite lookup_delete_eq. by rewrite Hm.
  - rewrite useEffect_no_token; cbn; rewrite ?Hm; [|done].
    by rewrite lookup_delete_eq.
Qed.

End OperatorPanelCredential.

Section OperatorPanelRefresh.

Local Arguments Js.trim : simpl never.
Local Arguments String.append : simpl never.

Import OperatorPanel.

(** A successful login starts a poll with the new token at once. *)
Lemma login_refreshes p k st res :
  mounted p = true →
  calls p !! k = Some CallLogin →
  Api.ok st = true →
  Js.truthy (Api.token res) = true →
  Js.truthy_opt (token (state p)) = false →
  let p' := (step p (Settle k (SettledLogin (Api.Http st (Some res))))).1 in
  (step p (Settle k (SettledLogin (Api.Http st (Some res))))).2 =
    [Api.getEscalations_request (Api.token res)
       (Js.or_undefined (Some (filter (state p))))]
  ∧ token (state p') = Some (Api.token res)
  ∧ storage p' !! "op_token" = Some (Api.token res).
Proof.
  intros Hm Hk Hok Hnew Hold. unfold step, handle. rewrite Hk.
  cbn [settle_call from_option idle id]. unfold Api.operatorLogin_response.
  rewrite Hok. unfold handleLogin_end, rerender. cbn. rewrite Hm.
  destruct (decide _) as [E|_].
  { injection E as E. rewrite <- E in Hold. cbn in Hold. congruence. }
  unfold useEffect, loadEscalations_begin. cbn.
  rewrite !Hm. cbn. rewrite Hnew. cbn. rewrite ?Hm. cbn.
  by rewrite lookup_insert_eq.
Qed.

(** A reply that was accepted is followed by a poll. *)
Lemma reply_refreshes p k cb st body tok :
  calls p !! k = Some (CallReply cb) →
  Api.ok st = true →
  Js.or_undefined (cb_token cb) = Some tok →
  (step p (Settle k (SettledReply (Api.Http st body)))).2 =
    [Api.getEscalations_request tok
       (Js.or_undefined (Some (cb_filter cb)))].
Proof.
  intros Hk Hok Htok. unfold step, handle. rewrite Hk.
  cbn [settle_call from_option idle id]. unfold Api.operatorReply_response.
  rewrite Hok. unfold handleReply_end, loadEscalations_begin.
  rewrite Htok. unfold rerender. cbn.
  destruct (mounted p); [|done]. cbn.
  by rewrite decide_True by done.
Qed.

End OperatorPanelRefresh.






